(** * OND-ART report validator: a shallow embedding of
      [ond_art_ci_pack/validator.py] and the properties of its invariant
      checks.

    Modelling conventions.
    - A parsed JSON document is a [json] value; a Python [dict] is a finite
      map from strings ([gmap string json]), [None] is [JNull].
    - Python [bool] is a subclass of [int], so [isinstance(v, int)] accepts
      [JBool] and [JInt], and [isinstance(v, (int, float))] accepts
      [JBool], [JInt] and [JFloat].
    - A Python [float] is a binary64 number, the kernel's [float]: sums,
      differences and comparisons are the IEEE 754 ones that Python
      computes, with rounding to nearest even, infinities and NaN. [a > b]
      is written [b <? a] and [a >= b] is written [b <=? a]. A Python
      [int] is an integer [Z].
    - An f-string is a [text]: the list of its literal pieces and of the
      values it formats, in order.
    - Code that can raise returns a [result]; code that appends to
      [extra_errors]/[extra_warnings] runs in the [check] monad, which threads
      the two lists and propagates exceptions.
    - What [main] reads from outside is an argument: the environment as a
      [config], the file system as a [world], the schema library and the
      parser of [float(str)] as section variables. What it writes is a list
      of [event]s, in order; a run whose summary file does not open ends at
      its first append to it.
    - Strings are byte strings, the UTF-8 encoding of Python's [str];
      [lower] changes the ASCII letters, and [strip] removes the white space
      of [str.isspace()] in that encoding. *)

From Stdlib Require Import Floats QArith Lqa Ascii String.
From stdpp Require Import gmap strings list fin_maps sorting.

#[local] Set Warnings "-register-all,-inexact-float".

Local Open Scope Z_scope.
Local Open Scope string_scope.
Local Open Scope list_scope.

(** ** JSON values *)

Inductive json : Type :=
| JNull
| JBool (b : bool)
| JInt (z : Z)
| JFloat (x : float)
| JStr (s : string)
| JList (l : list json)
| JDict (d : gmap string json).

(** ** Formatted messages *)

Inductive frag : Type :=
| Lit (s : string)      (* literal text, or a formatted [str] *)
| FInt (z : Z)          (* a formatted [int] *)
| FNum (x : float)      (* a formatted [float] *)
| FJson (v : json).     (* a formatted document value *)

Definition text : Type := list frag.

(** ** Exceptions *)

(** The exceptions of the code: those of the invariant checks, and the one
    that [open] raises on the summary file. *)
Inductive exn : Type :=
| AttributeError | TypeError | ValueError | OverflowError | OSError.

Inductive result (A : Type) : Type :=
| Ok (a : A)
| Raise (e : exn).
Arguments Ok {A} a.
Arguments Raise {A} e.

(** ** Constants *)

Definition TOL : float := 1e-12.
Definition DISCLAIMER_TEXT : string := "Diagnostic only; no security claim.".

(** ** Interval primitives *)

(** [ensure_ci_order(ci, path)] *)
Definition ensure_ci_order (ci : list float) (path : string) : option text :=
  match ci with
  | [lo; hi] =>
      if (TOL <? lo - hi)%float
      then Some [Lit path; Lit " invalid: low ("; FNum lo; Lit ") > high (";
                 FNum hi; Lit ")"]
      else None
  | _ => Some [Lit path; Lit " must have length 2"]
  end.

(** [num_in_interval(x, ci)]; the unpacking [lo, hi = ci] raises
    [ValueError] unless [ci] has exactly two elements. *)
Definition num_in_interval (x : float) (ci : list float) : result bool :=
  match ci with
  | [lo; hi] => Ok ((lo <=? x + TOL)%float && (x - TOL <=? hi)%float)
  | _ => Raise ValueError
  end.

(** ** Type tests and conversions *)

(** [isinstance(v, int)], with the integer it denotes. *)
Definition as_int (v : json) : option Z :=
  match v with
  | JInt z => Some z
  | JBool b => Some (Z.b2z b)
  | _ => None
  end.

(** [isinstance(v, (int, float))] *)
Definition is_number (v : json) : bool :=
  match v with
  | JInt _ | JBool _ | JFloat _ => true
  | _ => false
  end.

(** ** Findings, configuration, files and output *)

(** The two lists a report's checks append to. *)
Record findings : Type := Findings {
  extra_errors : list text;
  extra_warnings : list text
}.

(** The environment of a run, once read by [main]. *)
Record config : Type := Config {
  schema_path : string;
  report_glob : string;
  forbid : list string;
  default_profile : string;
  strict_classification : bool;
  require_disclaimer : bool;
  GITHUB_STEP_SUMMARY : option string
}.

(** An error of the schema validator: a path into the report and a message. *)
Inductive path_elem : Type :=
| PKey (s : string)
| PIndex (z : Z).

Record schema_error : Type := SchemaError {
  err_path : list path_elem;
  err_message : string
}.

(** What [load_json] does on a path: it returns the parsed value, or raises
    an exception with the given message. *)
Inductive load_result : Type :=
| Loaded (v : json)
| LoadError (e : string).

Record report_file : Type := ReportFile {
  file_path : string;
  file_load : load_result
}.

(** The file system as [main] sees it; [files] is
    [sorted(glob.glob(report_glob, recursive=True))], and [summary_opens p]
    tells whether [open(p, "a")] succeeds, which is taken not to change
    during a run. *)
Record world : Type := World {
  schema_exists : bool;
  schema_load : load_result;
  files : list report_file;
  summary_opens : string -> bool
}.

(** [a <= b] on [str]: the order of the code points one by one, which for
    well-formed UTF-8 is the order of the bytes. *)
Definition str_le (a b : string) : Prop := String.leb a b = true.

#[local] Instance str_le_dec (a b : string) : Decision (str_le a b).
Proof. unfold str_le. apply _. Defined.



(** What the code writes, in the order it writes it: a line printed on the
    standard output, or a line that [write_summary_line] appends to the step
    summary. The append is the one the code issues; [main] below says what
    becomes of a run whose summary file does not open. *)
Inductive event : Type :=
| Stdout (line : text)
| SummaryLine (line : text).

(** How the process ends: [SystemExit(main())], or an uncaught exception. *)
Inductive exit_status : Type :=
| Exit (code : Z)
| Uncaught (e : exn).

(** ** Test data *)

(** A string parser that accepts nothing, and a schema that every report
    satisfies: the oracles of the examples below. *)
Definition parse_nothing : string -> option float := fun _ => None.
Definition accept_all : json -> json -> list schema_error := fun _ _ => [].

Definition dict (l : list (string * json)) : json := JDict (list_to_map l).

Definition example_cfg (strict require : bool) : config :=
  Config "schemas/ond-art-report-0.1.schema.json" "reports/**/*.json"
    ["Strong Deviation"] "core" strict require None.

(** The baseline block of [test_strict_classification_fails]. *)
Definition example_baseline : list (string * json) :=
  [ ("baseline_id", JStr "release-1");
    ("distance", JFloat 0.3);
    ("distance_ci95", JList [JFloat 0.28; JFloat 0.31]);
    ("classification", JStr "Within Baseline Envelope");
    ("thresholds", dict [("green", JFloat 0.1); ("yellow", JFloat 0.2);
                         ("red", JFloat 0.4)]) ].

(** The numeric part of [base_report()] in the tests. *)
Definition example_report (N invalid_count : Z) (baseline notes : json) : json :=
  dict
    [ ("spec", dict [("name", JStr "OND-ART"); ("version", JStr "0.1");
                     ("profile", JStr "core")]);
      ("data", dict [("N", JInt N); ("order", JStr "generation_index");
                     ("invalid_count", JInt invalid_count)]);
      ("metrics",
        dict [ ("rank", dict [("H", JFloat 0.65); ("rho", JFloat 0.94);
                              ("ci95", JList [JFloat 0.92; JFloat 0.95])]);
               ("subspace", dict [("H", JFloat 5.1); ("rho", JFloat 0.71);
                                  ("ci95", JList [JFloat 0.68; JFloat 0.74])]);
               ("branching", dict [("H", JFloat 1.85);
                                   ("ci95", JList [JFloat 1.78; JFloat 1.92])]) ]);
      ("baseline", baseline);
      ("notes", notes) ].

Definition with_disclaimer : json := JList [JStr "Diagnostic only; no security claim."].

Definition example_world (fs : list report_file) : world :=
  World true (Loaded (dict [])) fs (fun _ => true).

(** The members of a report that is a JSON object. *)
Definition fields (report : json) : gmap string json :=
  match report with
  | JDict d => d
  | _ => ∅
  end.

Section Validator.

(** Python's [float] applied to a string parses it; the parser is external. *)
Variable str_to_float : string -> option float.

(** [float(n)] for an [int]: the nearest binary64 number, ties to even;
    an integer beyond the largest one raises [OverflowError]. *)
Definition float_of_int (n : Z) : result float :=
  match binary_normalize prec emax n 0 false with
  | S754_infinity _ => Raise OverflowError
  | sf => Ok (SF2Prim sf)
  end.

(** [float(v)] *)
Definition to_float (v : json) : result float :=
  match v with
  | JInt n => float_of_int n
  | JBool b => float_of_int (Z.b2z b)
  | JFloat x => Ok x
  | JStr s => match str_to_float s with Some x => Ok x | None => Raise ValueError end
  | _ => Raise TypeError
  end.

(** [d.get(k)] on a dict. *)
Definition dict_get (d : gmap string json) (k : string) : json :=
  default JNull (d !! k).

(** [obj.get(k)] on an arbitrary value: only a dict has the method. *)
Definition py_get (obj : json) (k : string) : result json :=
  match obj with
  | JDict d => Ok (dict_get d k)
  | _ => Raise AttributeError
  end.

(** [get_nested(obj, keys)] *)
Fixpoint get_nested (cur : json) (keys : list string) : json :=
  match keys with
  | [] => cur
  | k :: ks =>
      match cur with
      | JDict d => match d !! k with
                   | Some v => get_nested v ks
                   | None => JNull
                   end
      | _ => JNull
      end
  end.

(** ** Strings *)

Definition lower_ascii (c : ascii) : ascii :=
  let n := nat_of_ascii c in
  if (65 <=? n)%nat && (n <=? 90)%nat then ascii_of_nat (n + 32) else c.

(** [s.lower()], on ASCII letters. *)
Fixpoint lower (s : string) : string :=
  match s with
  | EmptyString => EmptyString
  | String c s' => String (lower_ascii c) (lower s')
  end.

(** [s.startswith(p)] *)
Fixpoint startswith (p s : string) : bool :=
  match p, s with
  | EmptyString, _ => true
  | String a p', String b s' => bool_decide (a = b) && startswith p' s'
  | String _ _, EmptyString => false
  end.

(** [needle in hay] *)
Fixpoint str_in (needle hay : string) : bool :=
  startswith needle hay ||
  match hay with
  | EmptyString => false
  | String _ hay' => str_in needle hay'
  end.

(** [s.endswith(p)] *)
Definition endswith (s p : string) : bool :=
  let n := String.length s in
  let m := String.length p in
  (m <=? n)%nat && bool_decide (substring (n - m) m s = p).

(** [has_required_disclaimer(notes)] *)
Definition has_required_disclaimer (notes : json) : bool :=
  match notes with
  | JList items =>
      existsb (fun item =>
                 match item with
                 | JStr s => str_in (lower DISCLAIMER_TEXT) (lower s)
                 | _ => false
                 end) items
  | _ => false
  end.

(** ** Default profile *)

(** The condition of the assignment in [inject_default_profile]:
    ["profile" not in spec or not isinstance(spec.get("profile"), str)
     or not spec.get("profile")]. *)
Definition profile_missing (spec : gmap string json) : bool :=
  match spec !! "profile" with
  | None => true
  | Some (JStr s) => bool_decide (s = EmptyString)
  | Some _ => true
  end.

(** [inject_default_profile(report, default_profile)]: the in-place update
    [spec["profile"] = default_profile] of the dict held under ["spec"]. *)
Definition inject_default_profile (report : gmap string json)
    (default_profile : string) : gmap string json :=
  match report !! "spec" with
  | Some (JDict spec) =>
      if profile_missing spec
      then <["spec" := JDict (<["profile" := JStr default_profile]> spec)]> report
      else report
  | _ => report
  end.

(** ** The check monad *)

Definition check (A : Type) : Type := findings -> result (A * findings).

Definition ret {A : Type} (a : A) : check A := fun st => Ok (a, st).

Definition bind {A B : Type} (c : check A) (k : A -> check B) : check B :=
  fun st => match c st with
            | Ok (a, st') => k a st'
            | Raise e => Raise e
            end.

Definition lift {A : Type} (r : result A) : check A :=
  fun st => match r with
            | Ok a => Ok (a, st)
            | Raise e => Raise e
            end.

(** [extra_errors.append(m)] *)
Definition append_error (m : text) : check unit :=
  fun st => Ok (tt, Findings (extra_errors st ++ [m]) (extra_warnings st)).

(** [extra_warnings.append(m)] *)
Definition append_warning (m : text) : check unit :=
  fun st => Ok (tt, Findings (extra_errors st) (extra_warnings st ++ [m])).

Notation "'let*' x ':=' c1 'in' c2" := (bind c1 (fun x => c2))
  (at level 10, x name, c1 at level 99, c2 at level 200).
Notation "c1 >> c2" := (bind c1 (fun _ => c2))
  (at level 100, right associativity).

Fixpoint for_each {A : Type} (f : A -> check unit) (l : list A) : check unit :=
  match l with
  | [] => ret tt
  | x :: l' => f x >> for_each f l'
  end.

(** ** Invariant checks *)

(** [check_required_numeric_in_ci(label, value, ci, errors)] *)
Definition check_required_numeric_in_ci (label : string) (value ci : json)
    : check unit :=
  match ci with
  | JList [c0; c1] =>
      if is_number value then
        let* x := lift (to_float value) in
        let* lo := lift (to_float c0) in
        let* hi := lift (to_float c1) in
        let* inside := lift (num_in_interval x [lo; hi]) in
        if inside then ret tt
        else append_error [Lit label; Lit " value "; FJson value;
                           Lit " is outside ci95 "; FJson ci]
      else ret tt
  | _ => ret tt
  end.

(** [invalid_count <= N] *)
Definition check_count (report : json) : check unit :=
  let N := get_nested report ["data"; "N"] in
  let invalid_count := get_nested report ["data"; "invalid_count"] in
  match as_int N, as_int invalid_count with
  | Some n, Some i =>
      if (i >? n)%Z
      then append_error [Lit "data.invalid_count ("; FJson invalid_count;
                         Lit ") > data.N ("; FJson N; Lit ")"]
      else ret tt
  | _, _ => ret tt
  end.

(** The locations scanned for a confidence interval. *)
Definition ci_paths (report : json) : list (string * json) :=
  [ ("metrics.rank.ci95", get_nested report ["metrics"; "rank"; "ci95"]);
    ("metrics.subspace.ci95", get_nested report ["metrics"; "subspace"; "ci95"]);
    ("metrics.branching.ci95", get_nested report ["metrics"; "branching"; "ci95"]) ]
  ++ match get_nested report ["baseline"; "distance_ci95"] with
     | JNull => []
     | baseline_ci => [("baseline.distance_ci95", baseline_ci)]
     end.

(** The body of the loop over [ci_paths]. *)
Definition check_ci_order (entry : string * json) : check unit :=
  let '(label, ci) := entry in
  match ci with
  | JList [c0; c1] =>
      if is_number c0 && is_number c1 then
        let* lo := lift (to_float c0) in
        let* hi := lift (to_float c1) in
        match ensure_ci_order [lo; hi] label with
        | Some msg => append_error msg
        | None => ret tt
        end
      else ret tt
  | _ => ret tt
  end.

(** [float(g) <= float(y) + TOL and float(y) <= float(r) + TOL]: the
    operands are converted from left to right, and the second comparison is
    evaluated only when the first holds. *)
Definition thresholds_monotonic (g y r : json) : check bool :=
  let* fg := lift (to_float g) in
  let* fy := lift (to_float y) in
  if (fg <=? fy + TOL)%float then
    let* fy := lift (to_float y) in
    let* fr := lift (to_float r) in
    ret (fy <=? fr + TOL)%float
  else ret false.

(** Thresholds monotonic. *)
Definition check_thresholds (thr : json) : check unit :=
  match thr with
  | JDict t =>
      let g := dict_get t "green" in
      let y := dict_get t "yellow" in
      let r := dict_get t "red" in
      if is_number g && is_number y && is_number r then
        let* monotonic := thresholds_monotonic g y r in
        if negb monotonic
        then append_error [Lit "baseline.thresholds must satisfy green<=yellow<=red, got ";
                           FJson thr]
        else ret tt
      else append_error [Lit "baseline.thresholds must contain numeric green/yellow/red"]
  | _ => ret tt
  end.

(** Forbidden classification. *)
Definition check_forbidden (cfg : config) (cls : json) : check unit :=
  match cls with
  | JStr c =>
      if bool_decide (c ∈ forbid cfg)
      then append_error [Lit "Forbidden baseline.classification='"; Lit c; Lit "'"]
      else ret tt
  | _ => ret tt
  end.

Definition when (b : bool) (c : check unit) : check unit :=
  if b then c else ret tt.

(** Optional consistency between distance and thresholds. *)
Definition check_classification (cfg : config) (baseline : gmap string json)
    (thr cls : json) : check unit :=
  match thr, cls with
  | JDict t, JStr c =>
      if strict_classification cfg
         && forallb (fun k => is_number (dict_get t k)) ["green"; "yellow"; "red"]
         && is_number (dict_get baseline "distance")
      then
        let* dist := lift (to_float (dict_get baseline "distance")) in
        let* green := lift (to_float (dict_get t "green")) in
        let* yellow := lift (to_float (dict_get t "yellow")) in
        let* red := lift (to_float (dict_get t "red")) in
        when (bool_decide (c = "Within Baseline Envelope") && (yellow + TOL <? dist)%float)
          (append_error [Lit "classification='"; Lit c; Lit "' but distance=";
                         FNum dist; Lit " > yellow="; FNum yellow]) >>
        when (bool_decide (c = "Strong Deviation") && (dist <? red - TOL)%float)
          (append_error [Lit "classification='"; Lit c; Lit "' but distance=";
                         FNum dist; Lit " < red="; FNum red]) >>
        when (bool_decide (c = "Deviating")
              && negb ((green - TOL <=? dist)%float && (dist <=? red + TOL)%float))
          (append_error [Lit "classification='"; Lit c; Lit "' but distance=";
                         FNum dist; Lit " not in [green, red]"])
      else ret tt
  | _, _ => ret tt
  end.

(** Baseline invariants: the body of [if isinstance(baseline, dict)]. *)
Definition baseline_invariants (cfg : config) (baseline : gmap string json)
    : check unit :=
  check_required_numeric_in_ci "baseline.distance"
    (dict_get baseline "distance") (dict_get baseline "distance_ci95") >>
  let thr := dict_get baseline "thresholds" in
  check_thresholds thr >>
  let cls := dict_get baseline "classification" in
  check_forbidden cfg cls >>
  check_classification cfg baseline thr cls.

Definition disclaimer_msg : text :=
  [Lit "notes missing standard disclaimer: '"; Lit DISCLAIMER_TEXT; Lit "'"].

(** Standard diagnostic disclaimer check. *)
Definition check_disclaimer (cfg : config) (notes : json) : check unit :=
  if negb (has_required_disclaimer notes) then
    if require_disclaimer cfg
    then append_error disclaimer_msg
    else append_warning disclaimer_msg
  else ret tt.

(** The additional invariants of [main], from the creation of
    [extra_errors] and [extra_warnings] to the disclaimer check. *)
Definition extra_invariants (cfg : config) (report : json) : check unit :=
  check_count report >>
  for_each check_ci_order (ci_paths report) >>
  check_required_numeric_in_ci "metrics.rank.rho"
    (get_nested report ["metrics"; "rank"; "rho"])
    (get_nested report ["metrics"; "rank"; "ci95"]) >>
  check_required_numeric_in_ci "metrics.subspace.rho"
    (get_nested report ["metrics"; "subspace"; "rho"])
    (get_nested report ["metrics"; "subspace"; "ci95"]) >>
  check_required_numeric_in_ci "metrics.branching.H"
    (get_nested report ["metrics"; "branching"; "H"])
    (get_nested report ["metrics"; "branching"; "ci95"]) >>
  let* baseline := lift (py_get report "baseline") in
  match baseline with
  | JDict b => baseline_invariants cfg b
  | _ => ret tt
  end >>
  let* notes := lift (py_get report "notes") in
  check_disclaimer cfg notes.

(** ** Output channels *)

(** [gh_error(file, message)] *)
Definition gh_error (file : string) (message : text) : event :=
  Stdout ([Lit "::error file="; Lit file; Lit "::"] ++ message).

(** [gh_warning(file, message)] *)
Definition gh_warning (file : string) (message : text) : event :=
  Stdout ([Lit "::warning file="; Lit file; Lit "::"] ++ message).

(** [write_summary_line(line)]: the append that the call issues; nothing is
    issued unless the environment names a summary file. The call opens the
    file itself; [main] cuts the run at the first append when the file does
    not open. *)
Definition write_summary_line (cfg : config) (line : text) : list event :=
  match GITHUB_STEP_SUMMARY cfg with
  | Some summary_path =>
      if bool_decide (summary_path = EmptyString) then [] else [SummaryLine line]
  | None => []
  end.

(** ** The schema oracle *)

(** [sorted(validator.iter_errors(report), key=lambda e: list(e.path))] for
    the validator built from the given schema: the first argument is the
    schema, the second the report. The schema library is external. *)
Variable sorted_iter_errors : json -> json -> list schema_error.

Definition str_elem (x : path_elem) : frag :=
  match x with
  | PKey s => Lit s
  | PIndex z => FInt z
  end.

(** [sep.join(l)] *)
Fixpoint join (sep : frag) (l : list frag) : text :=
  match l with
  | [] => []
  | [x] => [x]
  | x :: l' => x :: sep :: join sep l'
  end.

(** ["/" + "/".join(str(x) for x in err.path)] *)
Definition loc (err : schema_error) : text :=
  Lit "/" :: join (Lit "/") (map str_elem (err_path err)).

(** ** Paths *)

(** [s.split(sep)] for a separator of one character. *)
Fixpoint split_on (sep : ascii) (s : string) : list string :=
  match s with
  | EmptyString => [EmptyString]
  | String c s' =>
      if bool_decide (c = sep) then EmptyString :: split_on sep s'
      else match split_on sep s' with
           | x :: xs => String c x :: xs
           | [] => [String c EmptyString]
           end
  end.

(** The components of [Path(f)], for a POSIX path, the root apart: what
    stands between the slashes of [f], without the empty components and the
    components ["."], which [pathlib] drops when it parses a path. *)
Definition path_parts (f : string) : list string :=
  filter (fun x => x <> EmptyString /\ x <> ".") (split_on "/" f).

(** [Path(f).name]: the last component, and the empty string when there is
    none. *)
Definition path_name (f : string) : string :=
  default EmptyString (last (path_parts f)).

(** ** Emission *)

Definition nonempty {A : Type} (l : list A) : bool :=
  match l with [] => false | _ => true end.

(** The summary lines of a list of findings: the first 25, and the count of
    the others. *)
Definition summary_items {A : Type} (cfg : config) (item : A -> text)
    (l : list A) : list event :=
  flat_map (fun x => write_summary_line cfg (item x)) (firstn 25 l)
  ++ (if (25 <? length l)%nat
      then write_summary_line cfg
             [Lit "- …and "; FInt (Z.of_nat (length l) - 25); Lit " more"]
      else []).

(** The [except] branch of the report load. *)
Definition emit_invalid_json (cfg : config) (f e : string) : list event :=
  [gh_error f [Lit "Invalid JSON: "; Lit e]]
  ++ write_summary_line cfg [Lit "## ❌ `"; Lit f; Lit "`"]
  ++ write_summary_line cfg [Lit "- Invalid JSON: "; Lit e]
  ++ write_summary_line cfg [Lit EmptyString].

(** The body of [if errors:] after schema validation. *)
Definition emit_schema_errors (cfg : config) (f : string)
    (errors : list schema_error) : list event :=
  [Stdout [Lit "::group::Schema errors in "; Lit f]]
  ++ map (fun err => gh_error f (loc err ++ [Lit ": "; Lit (err_message err)])) errors
  ++ [Stdout [Lit "::endgroup::"]]
  ++ write_summary_line cfg [Lit "## ❌ `"; Lit f; Lit "`"]
  ++ summary_items cfg
       (fun err => [Lit "- `"] ++ loc err ++ [Lit "`: "; Lit (err_message err)])
       errors
  ++ write_summary_line cfg [Lit EmptyString].

(** The body of [if extra_errors:]. *)
Definition emit_extra_errors (cfg : config) (f : string)
    (errors : list text) : list event :=
  [Stdout [Lit "::group::Extra invariant errors in "; Lit f]]
  ++ map (gh_error f) errors
  ++ [Stdout [Lit "::endgroup::"]]
  ++ write_summary_line cfg [Lit "## ❌ `"; Lit f; Lit "`"]
  ++ summary_items cfg (fun msg => Lit "- " :: msg) errors
  ++ write_summary_line cfg [Lit EmptyString].

(** The body of [if extra_warnings:]. *)
Definition emit_extra_warnings (f : string) (warnings : list text)
    : list event :=
  [Stdout [Lit "::group::Extra invariant warnings in "; Lit f]]
  ++ map (gh_warning f) warnings
  ++ [Stdout [Lit "::endgroup::"]].

(** The end of the loop body, for a report without errors. *)
Definition emit_ok (cfg : config) (f : string) : list event :=
  [Stdout [Lit "✅ "; Lit f; Lit ": OK (schema + invariants)"]]
  ++ write_summary_line cfg [Lit "## ✅ `"; Lit f; Lit "`"]
  ++ write_summary_line cfg [Lit "- Schema OK"]
  ++ write_summary_line cfg [Lit "- Extra invariants OK"]
  ++ write_summary_line cfg [Lit EmptyString].

(** The [# Emit] part of the loop body: what is written for the findings of
    one report, and whether the report failed. *)
Definition emit_findings (cfg : config) (f : string) (fs : findings)
    : list event * bool :=
  if nonempty (extra_errors fs)
  then (emit_extra_errors cfg f (extra_errors fs), true)
  else ((if nonempty (extra_warnings fs)
         then emit_extra_warnings f (extra_warnings fs) else [])
        ++ emit_ok cfg f, false).

(** ** Validation of one report *)

(** [if isinstance(report, dict): inject_default_profile(report, default_profile)] *)
Definition inject_if_dict (cfg : config) (report : json) : json :=
  match report with
  | JDict d => JDict (inject_default_profile d (default_profile cfg))
  | _ => report
  end.

(** The loop body of [main] from the injection of the default profile on,
    for the report loaded from file [f]. The result is the report as the
    body leaves it, what the body writes, and either whether the report
    failed or the exception that escapes. *)
Definition validate_report (cfg : config) (schema : json) (f : string)
    (report : json) : json * (list event * result bool) :=
  let report := inject_if_dict cfg report in
  let errors := sorted_iter_errors schema report in
  (report,
   if nonempty errors then (emit_schema_errors cfg f errors, Ok true)
   else match extra_invariants cfg report (Findings [] []) with
        | Raise e => ([], Raise e)
        | Ok (_, fs) =>
            let '(out, failed) := emit_findings cfg f fs in (out, Ok failed)
        end).

(** The whole loop body, for one discovered file. *)
Definition process_file (cfg : config) (schema : json) (rf : report_file)
    : list event * result bool :=
  let f := file_path rf in
  if endswith (path_name f) ".schema.json" then ([], Ok false)
  else match file_load rf with
       | LoadError e => (emit_invalid_json cfg f e, Ok true)
       | Loaded report => snd (validate_report cfg schema f report)
       end.

(** The loop over [files], threading [any_failed]; an exception ends it. *)
Fixpoint run_files (cfg : config) (schema : json) (fs : list report_file)
    (any_failed : bool) : list event * result bool :=
  match fs with
  | [] => ([], Ok any_failed)
  | rf :: fs' =>
      match process_file cfg schema rf with
      | (out, Raise e) => (out, Raise e)
      | (out, Ok failed) =>
          let '(out', r) := run_files cfg schema fs' (any_failed || failed) in
          (out ++ out', r)
      end
  end.

Definition flag (b : bool) : string := if b then "1" else "0".

Definition summary_header (cfg : config) : list event :=
  write_summary_line cfg [Lit "# OND-ART validation"]
  ++ write_summary_line cfg [Lit "- Schema: `"; Lit (schema_path cfg); Lit "`"]
  ++ write_summary_line cfg [Lit "- Reports glob: `"; Lit (report_glob cfg); Lit "`"]
  ++ write_summary_line cfg
       [Lit "- DEFAULT_PROFILE (if missing): `"; Lit (default_profile cfg); Lit "`"]
  ++ write_summary_line cfg
       [Lit "- STRICT_CLASSIFICATION: `"; Lit (flag (strict_classification cfg)); Lit "`"]
  ++ write_summary_line cfg
       [Lit "- REQUIRE_DISCLAIMER: `"; Lit (flag (require_disclaimer cfg)); Lit "`"]
  ++ (if nonempty (forbid cfg)
      then write_summary_line cfg
             ([Lit "- Forbidden baseline.classification: `"]
              ++ join (Lit ", ") (map Lit (forbid cfg)) ++ [Lit "`"])
      else [])
  ++ write_summary_line cfg [Lit EmptyString].

(** The body of [main()], after the environment has been read into [cfg]:
    the writes it issues, in order, and how it ends when every append to the
    summary succeeds. *)
Definition main_writes (w : world) (cfg : config) : list event * exit_status :=
  if negb (schema_exists w)
  then ([Stdout [Lit "Schema not found: "; Lit (schema_path cfg)]], Exit 1)
  else
    match schema_load w with
    | LoadError e => ([Stdout [Lit "Invalid schema JSON: "; Lit e]], Exit 1)
    | Loaded schema =>
        match files w with
        | [] =>
            (Stdout [Lit "No report files found for glob: "; Lit (report_glob cfg)]
             :: write_summary_line cfg
                  [Lit "⚠️ No report files found; nothing to validate."],
             Exit 0)
        | fs =>
            let '(out, r) := run_files cfg schema fs false in
            (summary_header cfg ++ out,
             match r with
             | Ok any_failed => Exit (if any_failed then 1 else 0)
             | Raise e => Uncaught e
             end)
        end
    end.

(** The writes before the first append to the summary, and whether there is
    such an append. *)
Fixpoint before_summary (evs : list event) : list event * bool :=
  match evs with
  | [] => ([], false)
  | Stdout line :: evs' =>
      let '(written, found) := before_summary evs' in (Stdout line :: written, found)
  | SummaryLine _ :: _ => ([], true)
  end.

(** No append to the summary can fail: no summary file is named ([None] or
    the empty string), or the file opens. *)
Definition summary_ok (w : world) (cfg : config) : bool :=
  match GITHUB_STEP_SUMMARY cfg with
  | Some summary_path =>
      bool_decide (summary_path = EmptyString) || summary_opens w summary_path
  | None => true
  end.

(** [main()]. Every call of [write_summary_line] opens the summary file,
    and no [try] encloses a call: when the file does not open, the first
    call raises the [OSError] of [open], which leaves [main]; the run is
    then the writes before that call. *)
Definition main (w : world) (cfg : config) : list event * exit_status :=
  let '(evs, status) := main_writes w cfg in
  if summary_ok w cfg then (evs, status)
  else match before_summary evs with
       | (written, true) => (written, Uncaught OSError)
       | (_, false) => (evs, status)
       end.

(** An event is a summary line. *)
Definition is_summary (ev : event) : Prop :=
  match ev with SummaryLine _ => True | Stdout _ => False end.

(** ** Findings after a check *)

Definition add_error (st : findings) (m : text) : findings :=
  Findings (extra_errors st ++ [m]) (extra_warnings st).

Definition add_warning (st : findings) (m : text) : findings :=
  Findings (extra_errors st) (extra_warnings st ++ [m]).

Definition add_errors (st : findings) (ms : list text) : findings :=
  Findings (extra_errors st ++ ms) (extra_warnings st).

(** [v] passes [isinstance(v, (int, float))] and [float(v)] is [x]. *)
Definition numeric (v : json) (x : float) : Prop :=
  is_number v = true /\ to_float v = Ok x.

(** One of the conversions that the threshold check performs raises
    [OverflowError]: [float(g)], or [float(y)], or [float(r)], which is
    converted only when [float(g) <= float(y) + TOL]. *)
Definition thresholds_overflow (g y r : json) : Prop :=
  to_float g = Raise OverflowError \/
  (exists fg, to_float g = Ok fg /\ to_float y = Raise OverflowError) \/
  (exists fg fy, to_float g = Ok fg /\ to_float y = Ok fy /\
                 (fg <=? fy + TOL)%float = true /\
                 to_float r = Raise OverflowError).

(** The finding of the disclaimer check: an error when the disclaimer is
    required, a warning otherwise. *)
Definition disclaimer_finding (cfg : config) (st : findings) : findings :=
  if require_disclaimer cfg then add_error st disclaimer_msg
  else add_warning st disclaimer_msg.

(** The dict [spec] holds a non-empty string under ["profile"]. *)
Definition has_profile (spec : gmap string json) : Prop :=
  exists s, spec !! "profile" = Some (JStr s) /\ s <> EmptyString.

(** The file is one the loop skips: its name ends in [.schema.json]. *)
Definition skipped (rf : report_file) : Prop :=
  endswith (path_name (file_path rf)) ".schema.json" = true.

(** The file parsed as JSON, the report passed the schema, and its
    invariant checks ended without an error finding. *)
Definition file_passes (cfg : config) (schema : json) (rf : report_file) : Prop :=
  exists report fs,
    file_load rf = Loaded report /\
    sorted_iter_errors schema (inject_if_dict cfg report) = [] /\
    extra_invariants cfg (inject_if_dict cfg report) (Findings [] []) = Ok (tt, fs) /\
    extra_errors fs = [].

(** ** Arithmetic of the specification *)

(** The widened-interval test [low - tol <= value <= high + tol] that the
    specification compares [num_in_interval] with, on binary64 numbers. *)
Definition in_widened_interval (x lo hi : float) : bool :=
  (lo - TOL <=? x)%float && (x <=? hi + TOL)%float.

(** The test of [num_in_interval], [value + tol >= low and value - tol <= high],
    computed in exact rational arithmetic. *)
Definition num_in_interval_exact (tol x lo hi : Q) : bool :=
  Qle_bool lo (x + tol) && Qle_bool (x - tol) hi.

(** The rational a binary64 number denotes, when it is one. *)
Definition exact_value (x : float) : option Q :=
  match Prim2SF x with
  | S754_zero _ => Some 0%Q
  | S754_finite s m e => Some (inject_Z (cond_Zopp s (Zpos m)) * 2 ^ e)%Q
  | _ => None
  end.

(** A zero or a finite number: neither an infinity nor NaN. *)
Definition SFreal (x : spec_float) : Prop :=
  match x with
  | S754_zero _ | S754_finite _ _ _ => True
  | _ => False
  end.

(** ** Reading the environment *)

(** Strings hold the UTF-8 bytes of Python's [str]. The characters that
    [str.strip()] removes are those of [str.isspace()]: U+0009 to U+000D,
    U+001C to U+0020, U+0085, U+00A0, U+1680, U+2000 to U+200A, U+2028,
    U+2029, U+202F, U+205F and U+3000. In UTF-8 the first ten are one byte,
    the next two are two bytes and the others three. *)

(** [c.isspace()] for an ASCII character. *)
Definition is_space (c : ascii) : bool :=
  let n := nat_of_ascii c in
  ((9 <=? n)%nat && (n <=? 13)%nat) || ((28 <=? n)%nat && (n <=? 32)%nat).

Definition byte_is (c : ascii) (n : nat) : bool := (nat_of_ascii c =? n)%nat.

(** U+0085 and U+00A0: the bytes C2 85 and C2 A0. *)
Definition two_byte_space (a b : ascii) : bool :=
  byte_is a 194 && (byte_is b 133 || byte_is b 160).

(** U+1680 (E1 9A 80), U+2000 to U+200A, U+2028, U+2029, U+202F
    (E2 80 80 to 8A, A8, A9, AF), U+205F (E2 81 9F), U+3000 (E3 80 80). *)
Definition three_byte_space (a b c : ascii) : bool :=
  let n := nat_of_ascii c in
  (byte_is a 225 && byte_is b 154 && byte_is c 128)
  || (byte_is a 226 && byte_is b 128
      && (((128 <=? n)%nat && (n <=? 138)%nat)
          || byte_is c 168 || byte_is c 169 || byte_is c 175))
  || (byte_is a 226 && byte_is b 129 && byte_is c 159)
  || (byte_is a 227 && byte_is b 128 && byte_is c 128).

(** The number of bytes of the white-space character that [s] starts with,
    and 0 when it starts with none. *)
Definition space_width (s : string) : nat :=
  match s with
  | String a t =>
      if is_space a then 1
      else match t with
           | String b u =>
               if two_byte_space a b then 2
               else match u with
                    | String c _ => if three_byte_space a b c then 3 else 0
                    | EmptyString => 0
                    end
           | EmptyString => 0
           end
  | EmptyString => 0
  end.

(** [s.lstrip()] *)
Fixpoint lstrip (s : string) : string :=
  match s with
  | EmptyString => EmptyString
  | String a t =>
      if is_space a then lstrip t
      else match t with
           | String b u =>
               if two_byte_space a b then lstrip u
               else match u with
                    | String c v => if three_byte_space a b c then lstrip v else s
                    | EmptyString => s
                    end
           | EmptyString => s
           end
  end.

(** [s.rstrip()]: the string up to the point from which only white space
    follows. *)
Fixpoint rstrip (s : string) : string :=
  match s with
  | EmptyString => EmptyString
  | String c s' =>
      match lstrip s with
      | EmptyString => EmptyString
      | _ => String c (rstrip s')
      end
  end.

(** [s.strip()] *)
Definition strip (s : string) : string := rstrip (lstrip s).

(** [s[n:]] *)
Fixpoint sdrop (n : nat) (s : string) : string :=
  match n, s with
  | O, _ => s
  | S n', String _ s' => sdrop n' s'
  | S _, EmptyString => EmptyString
  end.

(** [s.split(",")] *)
Fixpoint split_comma (s : string) : list string :=
  match s with
  | EmptyString => [EmptyString]
  | String c s' =>
      if bool_decide (c = ","%char) then EmptyString :: split_comma s'
      else match split_comma s' with
           | x :: xs => String c x :: xs
           | [] => [String c EmptyString]
           end
  end.

(** [os.environ.get(name, default)] *)
Definition environ_get (environ : gmap string string) (name default : string)
    : string :=
  match environ !! name with
  | Some v => v
  | None => default
  end.

(** [forbid], as [main] reads it from [FORBID_CLASSIFICATION]. *)
Definition forbid_of_environ (environ : gmap string string) : list string :=
  let forbid_raw := strip (environ_get environ "FORBID_CLASSIFICATION" "Strong Deviation") in
  map strip (filter (fun x => strip x <> EmptyString) (split_comma forbid_raw)).

(** [default_profile], as [main] reads it from [DEFAULT_PROFILE]. *)
Definition default_profile_of_environ (environ : gmap string string) : string :=
  match strip (environ_get environ "DEFAULT_PROFILE" "core") with
  | EmptyString => "core"
  | v => v
  end.

(** A flag of [main]: [os.environ.get(name, "0").strip() == "1"]. *)
Definition flag_of_environ (environ : gmap string string) (name : string) : bool :=
  bool_decide (strip (environ_get environ name "0") = "1").

(** ** Properties of runs *)

(** The character [c] occurs in [s]. *)
Fixpoint has_char (c : ascii) (s : string) : bool :=
  match s with
  | EmptyString => false
  | String a s' => bool_decide (a = c) || has_char c s'
  end.

(** An event is a line of the standard output. *)
Definition is_stdout (ev : event) : bool :=
  match ev with Stdout _ => true | SummaryLine _ => false end.

(** The lines of the standard output among the events of a run. *)
Definition stdout_of (l : list event) : list event := List.filter is_stdout l.

(** The configuration [cfg] with the summary file of the environment set to
    [summary]. *)
Definition with_summary (cfg : config) (summary : option string) : config :=
  Config (schema_path cfg) (report_glob cfg) (forbid cfg) (default_profile cfg)
    (strict_classification cfg) (require_disclaimer cfg) summary.

(** The findings [st] followed by the findings [d]. *)
Definition findings_app (st d : findings) : findings :=
  Findings (extra_errors st ++ extra_errors d) (extra_warnings st ++ extra_warnings d).

(** The check [c] only appends: started from any findings it does what it
    does from none, after them. *)
Definition appends {A : Type} (c : check A) : Prop :=
  forall st,
    c st = match c (Findings [] []) with
           | Ok (a, d) => Ok (a, findings_app st d)
           | Raise e => Raise e
           end.

(** The check [c] leaves the warnings as they are. *)
Definition errors_only {A : Type} (c : check A) : Prop :=
  forall st a st', c st = Ok (a, st') -> extra_warnings st' = extra_warnings st.

(** Every exception the check [c] can raise is one of [P]. *)
Definition raises_only {A : Type} (P : exn -> Prop) (c : check A) : Prop :=
  forall st e, c st = Raise e -> P e.

(** The exceptions of [float(v)]. *)
Definition float_error (e : exn) : Prop :=
  e = TypeError \/ e = ValueError \/ e = OverflowError.

(** ** Binary64 comparisons and rounding *)

Lemma SFcompare_antisym (a b : spec_float) :
  SFcompare b a = option_map CompOpp (SFcompare a b).
Proof.
  destruct a as [sa|sa| |sa ma ea], b as [sb|sb| |sb mb eb]; simpl;
    try reflexivity; try (destruct sa; reflexivity); try (destruct sb; reflexivity);
    try (destruct sa, sb; reflexivity).
  change (Pos.compare_cont Eq mb ma) with (mb ?= ma)%positive.
  change (Pos.compare_cont Eq ma mb) with (ma ?= mb)%positive.
  rewrite (Z.compare_antisym ea eb), (Pos.compare_antisym ma mb).
  destruct sa, sb; try reflexivity; f_equal;
    destruct (ea ?= eb)%Z; simpl; try reflexivity;
    destruct (ma ?= mb)%positive; reflexivity.
Qed.

Lemma SFltb_negb_SFleb (a b : spec_float) :
  SFcompare a b <> None -> SFltb a b = negb (SFleb b a).
Proof.
  unfold SFltb, SFleb. rewrite (SFcompare_antisym a b).
  destruct (SFcompare a b) as [[]|]; simpl; congruence.
Qed.

Lemma ltb_negb_leb (a b : float) :
  Prim2SF a <> S754_nan -> Prim2SF b <> S754_nan ->
  (a <? b)%float = negb (b <=? a)%float.
Proof.
  intros Ha Hb. rewrite ltb_spec, leb_spec. apply SFltb_negb_SFleb.
  destruct (Prim2SF a), (Prim2SF b); simpl; congruence.
Qed.

Lemma shr_1_nonneg (mrs : shr_record) : (0 <= shr_m mrs)%Z -> (0 <= shr_m (shr_1 mrs))%Z.
Proof.
  destruct mrs as [m r s]. simpl. intros H.
  destruct m as [|[p|p|]|p]; simpl; lia.
Qed.

Lemma iter_pos_invariant {A : Type} (P : A -> Prop) (f : A -> A) :
  (forall x, P x -> P (f x)) -> forall p x, P x -> P (SpecFloat.iter_pos f p x).
Proof.
  intros Hf. induction p as [p IH|p IH|]; intros x Hx; simpl; auto.
Qed.

Lemma shr_nonneg (mrs : shr_record) (e n : Z) :
  (0 <= shr_m mrs)%Z -> (0 <= shr_m (fst (shr mrs e n)))%Z.
Proof.
  intros H. destruct n as [|p|p]; simpl; try assumption.
  apply (iter_pos_invariant (fun r => (0 <= shr_m r)%Z)); [apply shr_1_nonneg | assumption].
Qed.

Lemma shr_fexp_nonneg (pr em m e : Z) (l : location) :
  (0 <= m)%Z -> (0 <= shr_m (fst (shr_fexp pr em m e l)))%Z.
Proof.
  intros H. unfold shr_fexp. apply shr_nonneg.
  destruct l as [|[]]; simpl; assumption.
Qed.

Lemma round_nearest_even_nonneg (m : Z) (l : location) :
  (0 <= m)%Z -> (0 <= round_nearest_even m l)%Z.
Proof.
  intros H. destruct l as [|[]]; simpl; try assumption; [destruct (Z.even m)|]; lia.
Qed.

Lemma binary_round_aux_not_nan (pr em : Z) (sx : bool) (mx ex : Z) (lx : location) :
  (0 <= mx)%Z -> binary_round_aux pr em sx mx ex lx <> S754_nan.
Proof.
  intros H. unfold binary_round_aux.
  pose proof (shr_fexp_nonneg pr em mx ex lx H) as H1.
  destruct (shr_fexp pr em mx ex lx) as [mrs' e']. simpl in H1.
  pose proof (shr_fexp_nonneg pr em _ e' loc_Exact
                (round_nearest_even_nonneg _ (loc_of_shr_record mrs') H1)) as H2.
  destruct (shr_fexp pr em (round_nearest_even (shr_m mrs') (loc_of_shr_record mrs')) e' loc_Exact)
    as [mrs'' e'']. simpl in H2.
  destruct (shr_m mrs'') as [|p|p]; [discriminate | | lia].
  destruct (e'' <=? em - pr)%Z; discriminate.
Qed.

Lemma binary_normalize_not_nan (pr em m e : Z) (szero : bool) :
  binary_normalize pr em m e szero <> S754_nan.
Proof.
  unfold binary_normalize, binary_round.
  destruct m as [|p|p]; [discriminate| |];
    destruct (shl_align _ _ _) as [mz ez]; apply binary_round_aux_not_nan; lia.
Qed.

Lemma SFsub_not_nan (pr em : Z) (x y : spec_float) :
  SFreal x -> SFreal y -> SFsub pr em x y <> S754_nan.
Proof.
  destruct x as [sx|sx| |sx mx ex], y as [sy|sy| |sy my ey]; simpl; try tauto; intros _ _.
  - destruct sx, sy; discriminate.
  - discriminate.
  - discriminate.
  - apply binary_normalize_not_nan.
Qed.

Lemma is_finite_SFreal (x : float) : is_finite x = true -> SFreal (Prim2SF x).
Proof.
  unfold is_finite. rewrite negb_true_iff, orb_false_iff. intros [Hn Hi].
  unfold Prim2SF. rewrite Hn, Hi.
  destruct (is_zero x); [exact I|].
  destruct (Z.frexp x) as [r ex].
  destruct (shr_fexp _ _ _ _ _) as [sh e'].
  destruct (shr_m sh); exact I.
Qed.

Lemma sub_not_nan (x y : float) :
  is_finite x = true -> is_finite y = true -> Prim2SF (x - y) <> S754_nan.
Proof.
  intros Hx Hy. rewrite sub_spec. apply SFsub_not_nan; apply is_finite_SFreal; assumption.
Qed.

Lemma TOL_not_nan : Prim2SF TOL <> S754_nan.
Proof. vm_compute. discriminate. Qed.

Lemma gt_TOL_negb_le (d : float) :
  Prim2SF d <> S754_nan -> (TOL <? d)%float = negb (d <=? TOL)%float.
Proof. intros H. apply ltb_negb_leb; [apply TOL_not_nan | assumption]. Qed.

(** ** The interval primitives *)

(** C1 (as amended). On a pair [lo, hi], [num_in_interval] returns (it
    never raises), and it returns [True] exactly when [x + TOL >= lo] and
    [x - TOL <= hi] hold of the rounded sum and difference; computed in
    exact arithmetic, for any tolerance, that test is the widened-interval
    test [lo - tol <= x <= hi + tol]. *)
Theorem num_in_interval_formulation :
  (forall x lo hi : float,
     exists b, num_in_interval x [lo; hi] = Ok b /\
               (b = true <->
                (lo <=? x + TOL)%float = true /\ (x - TOL <=? hi)%float = true)) /\
  (forall tol x lo hi : Q,
     num_in_interval_exact tol x lo hi = true <->
     (lo - tol <= x /\ x <= hi + tol)%Q).
Proof.
  split.
  - intros x lo hi. eexists. split; [reflexivity|]. apply andb_true_iff.
  - intros tol x lo hi. unfold num_in_interval_exact.
    rewrite andb_true_iff, !Qle_bool_iff. split; intros [H1 H2]; split; lra.
Qed.

(** C2. On a pair of finite bounds [ensure_ci_order] reports nothing
    exactly when [lo - hi <= TOL]; it reports a violation exactly when
    [lo - hi > TOL], and the message then formats the path and both
    bounds. *)
Theorem ensure_ci_order_pair (lo hi : float) (path : string) :
  is_finite lo = true -> is_finite hi = true ->
  (ensure_ci_order [lo; hi] path = None <-> (lo - hi <=? TOL)%float = true) /\
  ((TOL <? lo - hi)%float = true <->
   exists msg, ensure_ci_order [lo; hi] path = Some msg /\
               In (Lit path) msg /\ In (FNum lo) msg /\ In (FNum hi) msg).
Proof.
  intros Hlo Hhi. unfold ensure_ci_order.
  rewrite (gt_TOL_negb_le _ (sub_not_nan lo hi Hlo Hhi)).
  destruct (lo - hi <=? TOL)%float; simpl; split.
  - split; reflexivity.
  - split; [discriminate | intros (msg & H & _); discriminate].
  - split; discriminate.
  - split; [intros _ | reflexivity].
    eexists; split; [reflexivity|]. simpl. auto 10.
Qed.

(** ** Running checks *)

Lemma dict_get_Some (d : gmap string json) (k : string) (v : json) :
  d !! k = Some v -> dict_get d k = v.
Proof. unfold dict_get. intros ->. reflexivity. Qed.

Lemma dict_get_None (d : gmap string json) (k : string) :
  d !! k = None -> dict_get d k = JNull.
Proof. unfold dict_get. intros ->. reflexivity. Qed.

Ltac run_check :=
  unfold when, bind, lift, ret, append_error, append_warning,
    add_error, add_warning; simpl.

(** C5 (as amended). The count check appends an error exactly when
    [data.N] and [data.invalid_count] are both Python ints, JSON integers
    or booleans, and [invalid_count > N]; the message formats both values.
    When one of the two is anything else, a float that is a whole number
    included, the check appends nothing. *)
Theorem check_count_containment (report : json) (st : findings) :
  let N := get_nested report ["data"; "N"] in
  let invalid_count := get_nested report ["data"; "invalid_count"] in
  (forall n i, as_int N = Some n -> as_int invalid_count = Some i ->
     (i > n ->
      check_count report st =
        Ok (tt, add_error st [Lit "data.invalid_count ("; FJson invalid_count;
                              Lit ") > data.N ("; FJson N; Lit ")"])) /\
     (i <= n -> check_count report st = Ok (tt, st))) /\
  (as_int N = None \/ as_int invalid_count = None ->
   check_count report st = Ok (tt, st)).
Proof.
  cbv zeta. unfold check_count. split.
  - intros n i -> ->. destruct (Z.gtb_spec i n); split; intros; try lia; reflexivity.
  - intros [H|H].
    + rewrite H. reflexivity.
    + destruct (as_int (get_nested report ["data"; "N"])); [rewrite H|]; reflexivity.
Qed.

Lemma float_of_int_raises (n : Z) (e : exn) :
  float_of_int n = Raise e -> e = OverflowError.
Proof.
  unfold float_of_int. destruct (binary_normalize prec emax n 0 false);
    intros H; inversion H; reflexivity.
Qed.

Lemma to_float_raises (v : json) (e : exn) : to_float v = Raise e -> float_error e.
Proof.
  unfold float_error. destruct v; simpl; intros H;
    try (apply float_of_int_raises in H; auto);
    try (inversion H; auto; fail).
  destruct (str_to_float s); inversion H; auto.
Qed.

Lemma to_float_number_raises (v : json) (e : exn) :
  is_number v = true -> to_float v = Raise e -> e = OverflowError.
Proof.
  destruct v; simpl; intros Hn H; try discriminate Hn;
    try (apply float_of_int_raises in H; exact H).
  discriminate H.
Qed.

Lemma to_float_number (v : json) :
  is_number v = true ->
  (exists x, to_float v = Ok x) \/ to_float v = Raise OverflowError.
Proof.
  intros H. destruct (to_float v) as [x|e] eqn:E; [left; eauto|].
  right. rewrite (to_float_number_raises v e H E). reflexivity.
Qed.

(** X26. The threshold check, case by case: nothing is reported when
    [baseline] has no [thresholds] (nor when [thresholds] is not a dict);
    when [thresholds] is a dict whose [green], [yellow] and [red] are
    numbers that [float] converts, an error is appended exactly when
    [green <= yellow + TOL and yellow <= red + TOL] fails; when they are
    numbers and a conversion that the check performs overflows, the check
    raises [OverflowError] and appends nothing; when it is a dict and they
    are not all numbers, the malformed-thresholds error is appended. *)
Theorem check_thresholds_cases (baseline : gmap string json) (st : findings) :
  let thr := dict_get baseline "thresholds" in
  (baseline !! "thresholds" = None -> check_thresholds thr st = Ok (tt, st)) /\
  ((forall t, thr <> JDict t) -> check_thresholds thr st = Ok (tt, st)) /\
  (forall t, baseline !! "thresholds" = Some (JDict t) ->
     let green := dict_get t "green" in
     let yellow := dict_get t "yellow" in
     let red := dict_get t "red" in
     (forall g y r,
        numeric green g -> numeric yellow y -> numeric red r ->
        (((g <=? y + TOL)%float = true /\ (y <=? r + TOL)%float = true) ->
         check_thresholds thr st = Ok (tt, st)) /\
        (~ ((g <=? y + TOL)%float = true /\ (y <=? r + TOL)%float = true) ->
         check_thresholds thr st =
           Ok (tt, add_error st
                     [Lit "baseline.thresholds must satisfy green<=yellow<=red, got ";
                      FJson (JDict t)]))) /\
     (is_number green && is_number yellow && is_number red = true ->
      (check_thresholds thr st = Raise OverflowError
       <-> thresholds_overflow green yellow red) /\
      (forall e, check_thresholds thr st = Raise e -> e = OverflowError) /\
      (forall g y, to_float green = Ok g -> to_float yellow = Ok y ->
         (g <=? y + TOL)%float = false ->
         check_thresholds thr st =
           Ok (tt, add_error st
                     [Lit "baseline.thresholds must satisfy green<=yellow<=red, got ";
                      FJson (JDict t)]))) /\
     (is_number green && is_number yellow && is_number red = false ->
      check_thresholds thr st =
        Ok (tt, add_error st
                  [Lit "baseline.thresholds must contain numeric green/yellow/red"]))).
Proof.
  intros thr. subst thr. split; [|split].
  - intros H. rewrite (dict_get_None _ _ H). reflexivity.
  - intros H. destruct (dict_get baseline "thresholds"); try reflexivity.
    exfalso. eapply H; eauto.
  - intros t H. cbv zeta. rewrite (dict_get_Some _ _ _ H). simpl. split; [|split].
    + intros g y r [Ng Fg] [Ny Fy] [Nr Fr].
      rewrite Ng, Ny, Nr. unfold thresholds_monotonic. run_check. rewrite Fg, Fy.
      destruct (g <=? y + TOL)%float; [rewrite Fr; destruct (y <=? r + TOL)%float|];
        simpl.
      * split; [reflexivity|]. tauto.
      * split; [|reflexivity]. intros [_ H2]. discriminate.
      * split; [|reflexivity]. intros [H1 _]. discriminate.
    + intros Hn. rewrite Hn.
      apply andb_true_iff in Hn as [Hn Nr]. apply andb_true_iff in Hn as [Ng Ny].
      unfold thresholds_overflow, thresholds_monotonic. run_check.
      destruct (to_float_number _ Ng) as [[g Fg]|Fg]; rewrite Fg.
      2:{ split; [split; [auto | reflexivity]|].
          split; [intros e He; inversion He; reflexivity|].
          intros g y Hg. discriminate Hg. }
      destruct (to_float_number _ Ny) as [[y Fy]|Fy]; rewrite Fy.
      2:{ split; [split; [intros _; right; left; eauto | reflexivity]|].
          split; [intros e He; inversion He; reflexivity|].
          intros g' y' _ Hy. discriminate Hy. }
      destruct (g <=? y + TOL)%float eqn:E1.
      2:{ simpl. split; [split; [discriminate|]|].
          - intros [H0|[(g' & _ & H0)|(g' & y' & H1 & H2 & H3 & _)]];
              try discriminate H0.
            inversion H1; inversion H2; subst. congruence.
          - split; [intros e He; discriminate He|].
            intros g' y' _ _ _. reflexivity. }
      destruct (to_float_number _ Nr) as [[r Fr]|Fr]; rewrite Fr.
      * simpl. split; [split|].
        -- destruct (y <=? r + TOL)%float; discriminate.
        -- intros [H0|[(g' & _ & H0)|(g' & y' & _ & _ & _ & H0)]]; discriminate H0.
        -- split; [intros e He; destruct (y <=? r + TOL)%float; discriminate He|].
           intros g' y' H1 H2 H3. inversion H1; inversion H2; subst. congruence.
      * split; [split; [intros _; right; right; eauto 10 | reflexivity]|].
        split; [intros e He; inversion He; reflexivity|].
        intros g' y' H1 H2 H3. inversion H1; inversion H2; subst. congruence.
    + intros ->. reflexivity.
Qed.

Lemma add_errors_nil (st : findings) : add_errors st [] = st.
Proof. destruct st. unfold add_errors. simpl. rewrite app_nil_r. reflexivity. Qed.

Lemma check_classification_converted (cfg : config) (baseline t : gmap string json)
    (c : string) (st : findings) (dist green yellow red : float) :
  strict_classification cfg = true ->
  baseline !! "thresholds" = Some (JDict t) ->
  baseline !! "classification" = Some (JStr c) ->
  numeric (dict_get baseline "distance") dist ->
  numeric (dict_get t "green") green ->
  numeric (dict_get t "yellow") yellow ->
  numeric (dict_get t "red") red ->
  exists errs,
    check_classification cfg baseline (dict_get baseline "thresholds")
      (dict_get baseline "classification") st = Ok (tt, add_errors st errs) /\
    (errs <> [] <->
       (c = "Within Baseline Envelope" /\ (yellow + TOL <? dist)%float = true) \/
       (c = "Strong Deviation" /\ (dist <? red - TOL)%float = true) \/
       (c = "Deviating" /\
        ~ ((green - TOL <=? dist)%float = true /\ (dist <=? red + TOL)%float = true))) /\
    (c <> "Within Baseline Envelope" -> c <> "Strong Deviation" ->
     c <> "Deviating" -> errs = []) /\
    (forall m, In m errs -> In (Lit c) m).
Proof.
  intros Hs Ht Hc [Nd Fd] [Ng Fg] [Ny Fy] [Nr Fr].
  rewrite (dict_get_Some _ _ _ Ht), (dict_get_Some _ _ _ Hc).
  unfold check_classification. rewrite Hs. cbn [forallb andb].
  rewrite Ng, Ny, Nr, Nd. cbn [andb].
  unfold bind at 1 2 3 4, lift. rewrite Fd, Fg, Fy, Fr.
  destruct (decide (c = "Within Baseline Envelope")) as [->|n1];
    [|destruct (decide (c = "Strong Deviation")) as [->|n2];
      [|destruct (decide (c = "Deviating")) as [->|n3]]].
  - run_check. destruct (yellow + TOL <? dist)%float eqn:E.
    + exists [[Lit "classification='"; Lit "Within Baseline Envelope";
               Lit "' but distance="; FNum dist; Lit " > yellow="; FNum yellow]].
      split; [reflexivity|]. split; [|split].
      * split; [intros _; left; tauto | discriminate].
      * congruence.
      * intros m [<-|[]]. simpl. tauto.
    + exists []. rewrite add_errors_nil.
      split; [reflexivity|]. split; [|split].
      * split; [congruence|]. intros [[_ H]|[[H _]|[H _]]]; discriminate.
      * reflexivity.
      * intros m [].
  - run_check. destruct (dist <? red - TOL)%float eqn:E.
    + exists [[Lit "classification='"; Lit "Strong Deviation";
               Lit "' but distance="; FNum dist; Lit " < red="; FNum red]].
      split; [reflexivity|]. split; [|split].
      * split; [intros _; right; left; tauto | discriminate].
      * congruence.
      * intros m [<-|[]]. simpl. tauto.
    + exists []. rewrite add_errors_nil.
      split; [reflexivity|]. split; [|split].
      * split; [congruence|]. intros [[H _]|[[_ H]|[H _]]]; discriminate.
      * reflexivity.
      * intros m [].
  - run_check.
    destruct ((green - TOL <=? dist)%float && (dist <=? red + TOL)%float) eqn:E.
    + exists []. rewrite add_errors_nil. apply andb_true_iff in E as [E1 E2].
      split; [reflexivity|]. split; [|split].
      * split; [congruence|]. intros [[H _]|[[H _]|[_ H]]]; [discriminate..|tauto].
      * reflexivity.
      * intros m [].
    + exists [[Lit "classification='"; Lit "Deviating";
               Lit "' but distance="; FNum dist; Lit " not in [green, red]"]].
      split; [reflexivity|]. split; [|split].
      * split; [intros _; right; right; split; [reflexivity|] | discriminate].
        intros [H1 H2]. rewrite H1, H2 in E. discriminate.
      * congruence.
      * intros m [<-|[]]. simpl. tauto.
  - rewrite !bool_decide_eq_false_2 by assumption. run_check.
    exists []. rewrite add_errors_nil.
    split; [reflexivity|]. split; [|split].
    + split; [congruence|]. intros [[H _]|[[H _]|[H _]]]; congruence.
    + reflexivity.
    + intros m [].
Qed.

(** X27. The classification check under strict mode, with a distance and
    thresholds that are numbers and a string label: when [float] converts the four
    numbers, the consistency check appends an error exactly when the label
    is "Within Baseline Envelope" and [distance > yellow + TOL], or
    "Strong Deviation" and [distance < red - TOL], or "Deviating" and
    [green - TOL <= distance <= red + TOL] fails; any other label is never
    reported, and each message formats the label. When one of the four
    numbers is an integer that [float] does not convert, the check raises
    [OverflowError], whatever the label is, and appends nothing. *)
Theorem check_classification_strict (cfg : config) (baseline t : gmap string json)
    (c : string) (st : findings) :
  strict_classification cfg = true ->
  baseline !! "thresholds" = Some (JDict t) ->
  baseline !! "classification" = Some (JStr c) ->
  is_number (dict_get baseline "distance") = true ->
  is_number (dict_get t "green") = true ->
  is_number (dict_get t "yellow") = true ->
  is_number (dict_get t "red") = true ->
  let numbers := [dict_get baseline "distance"; dict_get t "green";
                  dict_get t "yellow"; dict_get t "red"] in
  let run := check_classification cfg baseline (dict_get baseline "thresholds")
               (dict_get baseline "classification") st in
  (forall dist green yellow red,
     map to_float numbers = [Ok dist; Ok green; Ok yellow; Ok red] ->
     exists errs,
       run = Ok (tt, add_errors st errs) /\
       (errs <> [] <->
          (c = "Within Baseline Envelope" /\ (yellow + TOL <? dist)%float = true) \/
          (c = "Strong Deviation" /\ (dist <? red - TOL)%float = true) \/
          (c = "Deviating" /\
           ~ ((green - TOL <=? dist)%float = true /\ (dist <=? red + TOL)%float = true))) /\
       (c <> "Within Baseline Envelope" -> c <> "Strong Deviation" ->
        c <> "Deviating" -> errs = []) /\
       (forall m, In m errs -> In (Lit c) m)) /\
  (run = Raise OverflowError <->
   Exists (fun v => to_float v = Raise OverflowError) numbers) /\
  (forall e, run = Raise e -> e = OverflowError).
Proof.
  intros Hs Ht Hc Nd Ng Ny Nr. cbv zeta.
  assert (Hconv : forall dist green yellow red,
            to_float (dict_get baseline "distance") = Ok dist ->
            to_float (dict_get t "green") = Ok green ->
            to_float (dict_get t "yellow") = Ok yellow ->
            to_float (dict_get t "red") = Ok red ->
            exists errs,
              check_classification cfg baseline (dict_get baseline "thresholds")
                (dict_get baseline "classification") st = Ok (tt, add_errors st errs) /\
              (errs <> [] <->
                 (c = "Within Baseline Envelope" /\ (yellow + TOL <? dist)%float = true) \/
                 (c = "Strong Deviation" /\ (dist <? red - TOL)%float = true) \/
                 (c = "Deviating" /\
                  ~ ((green - TOL <=? dist)%float = true /\
                     (dist <=? red + TOL)%float = true))) /\
              (c <> "Within Baseline Envelope" -> c <> "Strong Deviation" ->
               c <> "Deviating" -> errs = []) /\
              (forall m, In m errs -> In (Lit c) m)).
  { intros dist green yellow red Fd Fg Fy Fr.
    apply (check_classification_converted cfg baseline t c st dist green yellow red);
      try assumption; split; assumption. }
  split.
  { intros dist green yellow red H. inversion H. apply Hconv; assumption. }
  assert (Hraise : forall e,
            to_float (dict_get baseline "distance") = Raise e \/
            (exists d, to_float (dict_get baseline "distance") = Ok d /\
               (to_float (dict_get t "green") = Raise e \/
                (exists g, to_float (dict_get t "green") = Ok g /\
                   (to_float (dict_get t "yellow") = Raise e \/
                    (exists y, to_float (dict_get t "yellow") = Ok y /\
                               to_float (dict_get t "red") = Raise e))))) ->
            check_classification cfg baseline (dict_get baseline "thresholds")
              (dict_get baseline "classification") st = Raise e).
  { intros e H. rewrite (dict_get_Some _ _ _ Ht), (dict_get_Some _ _ _ Hc).
    unfold check_classification. rewrite Hs. cbn [forallb andb].
    rewrite Ng, Ny, Nr, Nd. cbn [andb]. unfold bind at 1 2 3 4, lift.
    destruct H as [->|(d & -> & [->|(g & -> & [->|(y & -> & ->)])])]; reflexivity. }
  destruct (to_float_number _ Nd) as [[d Fd]|Fd].
  2:{ split; [split; [intros _; constructor; exact Fd | intros _; apply Hraise; auto]|].
      intros e He. rewrite (Hraise OverflowError) in He by auto. inversion He. reflexivity. }
  destruct (to_float_number _ Ng) as [[g Fg]|Fg].
  2:{ assert (R := Hraise OverflowError ltac:(right; eauto)).
      split; [split; [intros _; do 1 constructor 2; constructor; exact Fg | intros _; exact R]|].
      intros e He. rewrite R in He. inversion He. reflexivity. }
  destruct (to_float_number _ Ny) as [[y Fy]|Fy].
  2:{ assert (R := Hraise OverflowError ltac:(right; eauto 10)).
      split; [split; [intros _; do 2 constructor 2; constructor; exact Fy | intros _; exact R]|].
      intros e He. rewrite R in He. inversion He. reflexivity. }
  destruct (to_float_number _ Nr) as [[r Fr]|Fr].
  2:{ assert (R := Hraise OverflowError ltac:(right; eauto 10)).
      split; [split; [intros _; do 3 constructor 2; constructor; exact Fr | intros _; exact R]|].
      intros e He. rewrite R in He. inversion He. reflexivity. }
  destruct (Hconv d g y r Fd Fg Fy Fr) as (errs & -> & _).
  split; [split; [discriminate|]|intros e He; discriminate He].
  intros H. repeat (apply Exists_cons in H as [H|H]; [congruence|]).
  inversion H.
Qed.

Lemma bind_Ok {A B : Type} (c : check A) (k : A -> check B) (st : findings)
    (r : B * findings) :
  bind c k st = Ok r -> exists a st', c st = Ok (a, st') /\ k a st' = Ok r.
Proof.
  unfold bind. destruct (c st) as [[a st']|e]; [eauto | discriminate].
Qed.

Lemma lift_Ok {A : Type} (r : result A) (st : findings) (a : A) (st' : findings) :
  lift r st = Ok (a, st') -> r = Ok a /\ st' = st.
Proof. unfold lift. destruct r; intros H; inversion H; auto. Qed.

Lemma check_disclaimer_missing (cfg : config) (notes : json) (st : findings) :
  has_required_disclaimer notes = false ->
  check_disclaimer cfg notes st = Ok (tt, disclaimer_finding cfg st).
Proof.
  intros H. unfold check_disclaimer, disclaimer_finding. rewrite H. simpl.
  destruct (require_disclaimer cfg); reflexivity.
Qed.

(** C9. When [notes] is absent or is not a list, the disclaimer check still
    runs and appends the missing-disclaimer finding (an error when
    [REQUIRE_DISCLAIMER] is on, a warning otherwise), as it does for a notes
    list without the disclaimer; the finding is the last one of the
    document. *)
Theorem disclaimer_check_without_notes_list (cfg : config)
    (report : gmap string json) (st : findings) :
  (forall items, dict_get report "notes" <> JList items) ->
  check_disclaimer cfg (dict_get report "notes") st
    = Ok (tt, disclaimer_finding cfg st) /\
  (forall items, has_required_disclaimer (JList items) = false ->
     check_disclaimer cfg (dict_get report "notes") st
       = check_disclaimer cfg (JList items) st) /\
  (forall fs, extra_invariants cfg (JDict report) st = Ok (tt, fs) ->
     exists st', fs = disclaimer_finding cfg st').
Proof.
  intros Hn.
  assert (Hd : has_required_disclaimer (dict_get report "notes") = false).
  { destruct (dict_get report "notes"); try reflexivity. exfalso. eapply Hn; eauto. }
  split; [|split].
  - apply check_disclaimer_missing, Hd.
  - intros items Hi. rewrite !check_disclaimer_missing by assumption. reflexivity.
  - intros fs H. unfold extra_invariants in H.
    repeat (apply bind_Ok in H as (? & ? & ? & H)).
    match goal with
    | Hl : lift (py_get _ "notes") _ = _ |- _ =>
        apply lift_Ok in Hl as [Hl ->]; simpl in Hl; inversion Hl; subst
    end.
    rewrite check_disclaimer_missing in H by assumption.
    inversion H. eauto.
Qed.

(** ** Emission *)

Lemma write_summary_line_summary (cfg : config) (line : text) :
  Forall is_summary (write_summary_line cfg line).
Proof.
  unfold write_summary_line. destruct (GITHUB_STEP_SUMMARY cfg); [|constructor].
  case_bool_decide; repeat constructor.
Qed.

Lemma summary_items_summary {A : Type} (cfg : config) (item : A -> text)
    (l : list A) :
  Forall is_summary (summary_items cfg item l).
Proof.
  unfold summary_items. apply Forall_app. split.
  - induction (firstn 25 l); simpl; [constructor|].
    apply Forall_app. split; [apply write_summary_line_summary | assumption].
  - destruct (25 <? length l)%nat; [apply write_summary_line_summary | constructor].
Qed.

Lemma gh_warning_not_summary (f : string) (w : text) (l : list event) :
  Forall is_summary l -> ~ In (gh_warning f w) l.
Proof.
  intros H Hin. rewrite Forall_forall in H.
  apply (H _ (proj2 (list_elem_of_In _ _) Hin)).
Qed.

Lemma emit_extra_errors_no_warning (cfg : config) (f : string)
    (errors : list text) (f' : string) (w : text) :
  ~ In (gh_warning f' w) (emit_extra_errors cfg f errors).
Proof.
  unfold emit_extra_errors. rewrite !in_app_iff.
  intros [H|[H|[H|[H|[H|H]]]]].
  - destruct H as [H|[]]. discriminate.
  - apply in_map_iff in H as (e & H & _). discriminate.
  - destruct H as [H|[]]. discriminate.
  - revert H. apply gh_warning_not_summary, write_summary_line_summary.
  - revert H. apply gh_warning_not_summary, summary_items_summary.
  - revert H. apply gh_warning_not_summary, write_summary_line_summary.
Qed.

Lemma emit_ok_no_warning (cfg : config) (f : string) (f' : string) (w : text) :
  ~ In (gh_warning f' w) (emit_ok cfg f).
Proof.
  unfold emit_ok. rewrite !in_app_iff.
  intros [H|[H|[H|[H|H]]]];
    try (revert H; apply gh_warning_not_summary, write_summary_line_summary).
  destruct H as [H|[]]. discriminate.
Qed.

Lemma emit_findings_warning (cfg : config) (f : string) (fs : findings)
    (f' : string) (w : text) :
  In (gh_warning f' w) (fst (emit_findings cfg f fs)) ->
  extra_errors fs = [] /\ In w (extra_warnings fs) /\ f' = f.
Proof.
  unfold emit_findings. destruct (extra_errors fs) as [|e errs] eqn:E;
    cbn [nonempty fst].
  - rewrite in_app_iff. intros [H|H].
    + destruct (nonempty (extra_warnings fs)); [|contradiction].
      unfold emit_extra_warnings in H. rewrite !in_app_iff in H.
      destruct H as [[H|[]]|[H|[H|[]]]]; [discriminate| |discriminate].
      apply in_map_iff in H as (w' & H & Hin).
      unfold gh_warning in H. simpl in H. inversion H; subst. auto.
    + exfalso. revert H. apply emit_ok_no_warning.
  - intros H. exfalso. revert H. apply emit_extra_errors_no_warning.
Qed.

(** C10. For a report that passes the schema and whose invariant checks
    end with the findings [fs]: if [fs] has an error, what is written is
    the error report alone, which depends on the errors only and contains
    no warning annotation; a warning annotation is written only when [fs]
    has no error, and then it is one of the report's warnings. *)
Theorem warnings_only_without_errors (cfg : config) (schema : json)
    (f : string) (report : json) (fs : findings) :
  sorted_iter_errors schema (inject_if_dict cfg report) = [] ->
  extra_invariants cfg (inject_if_dict cfg report) (Findings [] []) = Ok (tt, fs) ->
  let out := fst (snd (validate_report cfg schema f report)) in
  (extra_errors fs <> [] ->
   out = emit_extra_errors cfg f (extra_errors fs) /\
   forall f' w, ~ In (gh_warning f' w) out) /\
  (forall f' w, In (gh_warning f' w) out ->
   extra_errors fs = [] /\ In w (extra_warnings fs)).
Proof.
  intros Hs Hi. unfold validate_report. rewrite Hs, Hi. simpl.
  destruct (emit_findings cfg f fs) as [out failed] eqn:E. simpl.
  assert (Hout : out = fst (emit_findings cfg f fs)) by (rewrite E; reflexivity).
  split.
  - intros Hne. assert (out = emit_extra_errors cfg f (extra_errors fs)) as ->.
    { rewrite Hout. unfold emit_findings.
      destruct (extra_errors fs); [congruence | reflexivity]. }
    split; [reflexivity|]. intros f' w. apply emit_extra_errors_no_warning.
  - intros f' w H. rewrite Hout in H.
    apply emit_findings_warning in H. tauto.
Qed.

(** ** The default profile *)

Lemma profile_missing_false (spec : gmap string json) :
  profile_missing spec = false <-> has_profile spec.
Proof.
  unfold profile_missing, has_profile.
  destruct (spec !! "profile") as [[]|]; try (split; [discriminate|]);
    try (intros (s0 & H & _); discriminate).
  case_bool_decide; split; try discriminate.
  - intros (s0 & H0 & Hne). congruence.
  - eauto.
  - reflexivity.
Qed.

Lemma profile_missing_true (spec : gmap string json) :
  profile_missing spec = true <-> ~ has_profile spec.
Proof.
  rewrite <- profile_missing_false. destruct (profile_missing spec); split; congruence.
Qed.

Lemma inject_default_profile_unchanged (report : gmap string json) (dp : string) :
  (forall spec, report !! "spec" = Some (JDict spec) -> profile_missing spec = false) ->
  inject_default_profile report dp = report.
Proof.
  intros H. unfold inject_default_profile.
  destruct (report !! "spec") as [[| | | | | |spec]|]; try reflexivity.
  rewrite (H spec eq_refl). reflexivity.
Qed.

Lemma inject_default_profile_changed (report spec : gmap string json) (dp : string) :
  report !! "spec" = Some (JDict spec) -> profile_missing spec = true ->
  inject_default_profile report dp
  = <["spec" := JDict (<["profile" := JStr dp]> spec)]> report.
Proof. intros E M. unfold inject_default_profile. rewrite E, M. reflexivity. Qed.



(** C6 (as amended). What validation leaves of a report: a report that is
    not a dict, or whose [spec] is not a dict, or whose [spec.profile] is a
    non-empty string, is unchanged; otherwise [spec.profile] becomes the
    default profile, and every other key of [spec] and every other key of
    the report keeps its value. *)
Theorem validation_changes_profile_only (cfg : config) (schema : json)
    (f : string) (report : json) :
  let report' := fst (validate_report cfg schema f report) in
  ((forall d, report <> JDict d) -> report' = report) /\
  (forall d, report = JDict d ->
     exists d', report' = JDict d' /\
       (forall k, k <> "spec" -> d' !! k = d !! k) /\
       ((forall spec, d !! "spec" <> Some (JDict spec)) -> d' = d) /\
       (forall spec, d !! "spec" = Some (JDict spec) ->
          (has_profile spec -> d' = d) /\
          (~ has_profile spec ->
           exists spec', d' !! "spec" = Some (JDict spec') /\
             spec' !! "profile" = Some (JStr (default_profile cfg)) /\
             forall k, k <> "profile" -> spec' !! k = spec !! k))).
Proof.
  simpl. split.
  - intros H. destruct report; try reflexivity. exfalso. eapply H; eauto.
  - intros d ->. simpl. eexists; split; [reflexivity|].
    unfold inject_default_profile. split; [|split].
    + intros k Hk. destruct (d !! "spec") as [[| | | | | |spec]|]; try reflexivity.
      destruct (profile_missing spec); [|reflexivity].
      apply lookup_insert_ne. congruence.
    + intros H. destruct (d !! "spec") as [[| | | | | |spec]|]; try reflexivity.
      exfalso. eapply H; eauto.
    + intros spec ->. split.
      * intros H. apply profile_missing_false in H. rewrite H. reflexivity.
      * intros H. apply profile_missing_true in H. rewrite H.
        eexists. split; [apply lookup_insert_eq|]. split.
        -- apply lookup_insert_eq.
        -- intros k Hk. apply lookup_insert_ne. congruence.
Qed.


Lemma string_compare_trans (a b c : string) :
  String.compare a b <> Gt -> String.compare b c <> Gt -> String.compare a c <> Gt.
Proof.
  revert b c. induction a as [|x a IH]; intros [|y b] [|z c]; simpl; try congruence.
  change (Ascii.compare x y) with (N.compare (N_of_ascii x) (N_of_ascii y)).
  change (Ascii.compare y z) with (N.compare (N_of_ascii y) (N_of_ascii z)).
  change (Ascii.compare x z) with (N.compare (N_of_ascii x) (N_of_ascii z)).
  destruct (N.compare_spec (N_of_ascii x) (N_of_ascii y)) as [E1|E1|E1];
    destruct (N.compare_spec (N_of_ascii y) (N_of_ascii z)) as [E2|E2|E2];
    destruct (N.compare_spec (N_of_ascii x) (N_of_ascii z)) as [E3|E3|E3];
    try congruence; try lia.
  apply IH.
Qed.

#[local] Instance str_le_trans : Transitive str_le.
Proof.
  intros a b c. unfold str_le, String.leb. intros H1 H2.
  pose proof (string_compare_trans a b c) as T.
  destruct (String.compare a b), (String.compare b c), (String.compare a c);
    try reflexivity; try discriminate; exfalso; apply T; congruence.
Qed.

#[local] Instance str_le_antisym : AntiSymm (=) str_le.
Proof. intros a b. apply String.leb_antisym. Qed.

#[local] Instance str_le_total : Total str_le.
Proof. intros a b. apply String.leb_total. Qed.



(** ** The verdict of a run *)

Lemma process_file_passes (cfg : config) (schema : json) (rf : report_file) :
  snd (process_file cfg schema rf) = Ok false <->
  skipped rf \/ file_passes cfg schema rf.
Proof.
  unfold process_file, skipped, file_passes.
  destruct (endswith (path_name (file_path rf)) ".schema.json") eqn:E.
  { simpl. tauto. }
  destruct (file_load rf) as [report|e] eqn:L.
  2:{ simpl. split; [discriminate|].
      intros [H|(r & fs & H & _)]; discriminate. }
  unfold validate_report. cbn [snd].
  destruct (sorted_iter_errors schema (inject_if_dict cfg report)) as [|se ses] eqn:S.
  2:{ simpl. split; [discriminate|].
      intros [H|(r & fs & H1 & H2 & _)]; [discriminate|].
      inversion H1; subst. congruence. }
  cbn [nonempty].
  destruct (extra_invariants cfg (inject_if_dict cfg report) (Findings [] []))
    as [[[] fs]|e] eqn:I.
  2:{ simpl. split; [discriminate|].
      intros [H|(r & fs & H1 & H2 & H3 & _)]; [discriminate|].
      inversion H1; subst. congruence. }
  unfold emit_findings. destruct (extra_errors fs) as [|m ms] eqn:X; simpl.
  - split; [|reflexivity]. intros _. right. exists report, fs. auto.
  - split; [discriminate|].
    intros [H|(r & fs' & H1 & H2 & H3 & H4)]; [discriminate|].
    inversion H1; subst. rewrite I in H3. inversion H3; subst. congruence.
Qed.

Lemma run_files_passes (cfg : config) (schema : json) (fs : list report_file) :
  forall any_failed,
    snd (run_files cfg schema fs any_failed) = Ok false <->
    any_failed = false /\
    Forall (fun rf => skipped rf \/ file_passes cfg schema rf) fs.
Proof.
  induction fs as [|rf fs IH]; intros any_failed; simpl.
  - split; [intros H; inversion H; auto | intros [-> _]; reflexivity].
  - rewrite Forall_cons, <- process_file_passes.
    destruct (process_file cfg schema rf) as [out [failed|e]]; simpl.
    + specialize (IH (any_failed || failed)).
      destruct (run_files cfg schema fs (any_failed || failed)) as [out' r].
      simpl in *. rewrite IH. rewrite orb_false_iff.
      split; [intros [[-> ->] H] | intros [-> [H1 H2]]]; auto.
      inversion H1; auto.
    + split; [discriminate | intros [_ [H _]]; discriminate].
Qed.

Lemma main_summary_ok (w : world) (cfg : config) :
  summary_ok w cfg = true -> main w cfg = main_writes w cfg.
Proof.
  intros H. unfold main. rewrite H. destruct (main_writes w cfg). reflexivity.
Qed.

Lemma write_summary_line_not_ok (w : world) (cfg : config) (line : text) :
  summary_ok w cfg = false -> write_summary_line cfg line = [SummaryLine line].
Proof.
  unfold summary_ok, write_summary_line.
  destruct (GITHUB_STEP_SUMMARY cfg) as [p|]; [|discriminate].
  destruct (bool_decide (p = EmptyString)); [discriminate | reflexivity].
Qed.

Lemma summary_ok_unset (w : world) (cfg : config) :
  summary_ok w (with_summary cfg None) = true.
Proof. reflexivity. Qed.

Lemma main_no_schema (w : world) (cfg : config) :
  schema_exists w = false \/ (exists e, schema_load w = LoadError e) ->
  main w cfg = main_writes w cfg /\
  exists line, main_writes w cfg = ([Stdout line], Exit 1).
Proof.
  unfold main, main_writes. intros [H|[e H]].
  - rewrite H. cbn [negb]. destruct (summary_ok w cfg); split; eauto.
  - rewrite H. destruct (schema_exists w); cbn [negb];
      destruct (summary_ok w cfg); split; eauto.
Qed.

(** X20. When the schema file is missing or does not load, the run ends
    with status 1 after a single line, whatever files there are to
    validate: none is read. *)
Lemma main_schema_unavailable (w : world) (cfg : config) :
  schema_exists w = false \/ (exists e, schema_load w = LoadError e) ->
  snd (main w cfg) = Exit 1 /\ length (fst (main w cfg)) = 1%nat.
Proof.
  intros H. destruct (main_no_schema w cfg H) as [E [line E']].
  rewrite E, E'. split; reflexivity.
Qed.

Lemma main_writes_exit_zero (w : world) (cfg : config) (schema : json) :
  schema_exists w = true ->
  schema_load w = Loaded schema ->
  (snd (main_writes w cfg) = Exit 0 <->
   Forall (fun rf => skipped rf \/ file_passes cfg schema rf) (files w)).
Proof.
  intros He Hl. unfold main_writes. rewrite He, Hl. cbn [negb].
  destruct (files w) as [|rf fs] eqn:F.
  - split; [constructor | reflexivity].
  - pose proof (run_files_passes cfg schema (rf :: fs) false) as H.
    destruct (run_files cfg schema (rf :: fs) false) as [out r].
    cbn [snd] in *.
    assert (H' : r = Ok false <->
                 Forall (fun rf => skipped rf \/ file_passes cfg schema rf) (rf :: fs))
      by (rewrite H; tauto).
    rewrite <- H'.
    destruct r as [[|]|e]; split; intros H0; (discriminate || reflexivity).
Qed.

Lemma main_summary_fails (w : world) (cfg : config) (schema : json) :
  schema_exists w = true ->
  schema_load w = Loaded schema ->
  summary_ok w cfg = false ->
  snd (main w cfg) = Uncaught OSError /\
  exists written, fst (main w cfg) = written /\ (length written <= 1)%nat /\
                  stdout_of written = written.
Proof.
  intros He Hl Hs. unfold main, main_writes. rewrite He, Hl, Hs. cbn [negb].
  destruct (files w) as [|rf fs].
  - rewrite (write_summary_line_not_ok w cfg _ Hs). cbn [before_summary fst snd].
    split; [reflexivity|]. eexists. split; [reflexivity|]. split; [simpl; lia | reflexivity].
  - destruct (run_files cfg schema (rf :: fs) false) as [out r].
    unfold summary_header. rewrite (write_summary_line_not_ok w cfg _ Hs).
    cbn [app before_summary fst snd].
    split; [reflexivity|]. exists []. split; [reflexivity|]. split; [simpl; lia | reflexivity].
Qed.

(** C7 (as amended). When the schema loads and the run ends by returning
    a status, the status is zero exactly when every discovered file either
    is skipped as a schema file or parsed as JSON, passed the schema and
    ended its invariant checks without an error. The run returns status
    zero exactly when, besides, no append to the summary can fail: no
    summary file is named, or it opens. Warnings play no part in the
    verdict, and an empty batch exits with status zero when the summary can
    be written. *)
Theorem main_exit_zero (w : world) (cfg : config) (schema : json) :
  schema_exists w = true ->
  schema_load w = Loaded schema ->
  (forall n, snd (main w cfg) = Exit n ->
     (n = 0 <-> Forall (fun rf => skipped rf \/ file_passes cfg schema rf) (files w))) /\
  (snd (main w cfg) = Exit 0 <->
   summary_ok w cfg = true /\
   Forall (fun rf => skipped rf \/ file_passes cfg schema rf) (files w)) /\
  (forall f warnings, snd (emit_findings cfg f (Findings [] warnings)) = false) /\
  (files w = [] -> summary_ok w cfg = true -> snd (main w cfg) = Exit 0).
Proof.
  intros He Hl.
  pose proof (main_writes_exit_zero w cfg schema He Hl) as Hz.
  assert (Hiff : snd (main w cfg) = Exit 0 <->
                 summary_ok w cfg = true /\
                 Forall (fun rf => skipped rf \/ file_passes cfg schema rf) (files w)).
  { destruct (summary_ok w cfg) eqn:Hs.
    - rewrite (main_summary_ok w cfg Hs), Hz. split; [auto | intros [_ H]; exact H].
    - rewrite (proj1 (main_summary_fails w cfg schema He Hl Hs)).
      split; [discriminate | intros [H _]; discriminate H]. }
  split; [|split; [exact Hiff|split]].
  - intros n Hn. destruct (summary_ok w cfg) eqn:Hs.
    + split.
      * intros ->. apply Hiff in Hn. exact (proj2 Hn).
      * intros HF. assert (H0 : snd (main w cfg) = Exit 0) by (apply Hiff; auto).
        rewrite Hn in H0. inversion H0. reflexivity.
    + rewrite (proj1 (main_summary_fails w cfg schema He Hl Hs)) in Hn. discriminate Hn.
  - reflexivity.
  - intros F Hs. apply Hiff. split; [exact Hs|]. rewrite F. constructor.
Qed.

(** ** Lookups, strings and paths *)

(** X1. [get_nested] composes: following [ks1 ++ ks2] is following [ks1]
    and then [ks2] from what was found, [None] included. *)
Theorem get_nested_app (obj : json) (ks1 ks2 : list string) :
  get_nested obj (ks1 ++ ks2) = get_nested (get_nested obj ks1) ks2.
Proof.
  revert obj. induction ks1 as [|k ks1 IH]; intros obj; [reflexivity|].
  assert (Hnull : get_nested JNull ks2 = JNull) by (destruct ks2; reflexivity).
  simpl. destruct obj; try (symmetry; exact Hnull).
  destruct (d !! k); [apply IH | symmetry; exact Hnull].
Qed.

Lemma startswith_app (p s : string) :
  startswith p s = true <-> exists b, s = p +:+ b.
Proof.
  revert s. induction p as [|a p IH]; intros s; simpl.
  - split; [intros _; exists s; reflexivity | reflexivity].
  - destruct s as [|c s]; [split; [discriminate | intros [b H]; discriminate]|].
    rewrite andb_true_iff, bool_decide_eq_true, IH. split.
    + intros [-> [b ->]]. exists b. reflexivity.
    + intros [b H]. inversion H. eauto.
Qed.

Lemma str_in_app (needle hay : string) :
  str_in needle hay = true <-> exists a b, hay = a +:+ needle +:+ b.
Proof.
  induction hay as [|c hay IH]; simpl; rewrite orb_true_iff, startswith_app.
  - split.
    + intros [[b H]|H]; [|discriminate]. exists EmptyString, b. exact H.
    + intros ([|c a] & b & H); [left; exists b; exact H | discriminate].
  - rewrite IH. split.
    + intros [[b H]|(a & b & H)].
      * exists EmptyString, b. exact H.
      * exists (String c a), b. simpl. rewrite H. reflexivity.
    + intros ([|c' a] & b & H).
      * left. exists b. exact H.
      * right. inversion H. eauto.
Qed.

Lemma lower_app (a b : string) : lower (a +:+ b) = lower a +:+ lower b.
Proof. induction a as [|c a IH]; simpl; [reflexivity | rewrite IH; reflexivity]. Qed.

(** X2. [has_required_disclaimer] holds exactly of a list one of whose
    string items contains the disclaimer once both are lowered: the item
    may have any other text around the disclaimer, in any letter case, and
    items that are not strings are passed over. *)
Theorem has_required_disclaimer_iff (notes : json) :
  has_required_disclaimer notes = true <->
  exists items s a b,
    notes = JList items /\ In (JStr s) items /\
    lower s = a +:+ lower DISCLAIMER_TEXT +:+ b.
Proof.
  unfold has_required_disclaimer. destruct notes as [| | | | |items|];
    try (split; [discriminate | intros (? & ? & ? & ? & H & _); discriminate]).
  rewrite existsb_exists. split.
  - intros (item & Hin & H). destruct item as [| | | |s| |]; try discriminate.
    apply str_in_app in H as (a & b & H). exists items, s, a, b. auto.
  - intros (items' & s & a & b & E & Hin & H). inversion E; subst items'.
    exists (JStr s). split; [exact Hin|]. apply str_in_app. eauto.
Qed.


Lemma substring_all (p : string) : substring 0 (String.length p) p = p.
Proof. induction p as [|c p IH]; simpl; [reflexivity | rewrite IH; reflexivity]. Qed.

Lemma substring_skip (a p : string) :
  substring (String.length a) (String.length p) (a +:+ p) = p.
Proof. induction a as [|c a IH]; simpl; [apply substring_all | exact IH]. Qed.

Lemma string_length_app (a b : string) :
  String.length (a +:+ b) = (String.length a + String.length b)%nat.
Proof. induction a as [|c a IH]; simpl; [reflexivity | rewrite IH; reflexivity]. Qed.

Lemma substring_split (s : string) :
  forall k, (k <= String.length s)%nat ->
    s = substring 0 k s +:+ substring k (String.length s - k) s.
Proof.
  induction s as [|c s IH]; intros k Hk.
  - destruct k; reflexivity.
  - destruct k as [|k].
    + simpl. rewrite substring_all. reflexivity.
    + simpl in Hk.
      change (String c s
              = String c (substring 0 k s +:+ substring k (String.length s - k) s)).
      f_equal. apply IH. lia.
Qed.

Lemma endswith_elim (s p : string) :
  endswith s p = true -> exists a, s = a +:+ p.
Proof.
  unfold endswith. rewrite andb_true_iff, Nat.leb_le, bool_decide_eq_true.
  intros [Hle H]. exists (substring 0 (String.length s - String.length p) s).
  rewrite (substring_split s (String.length s - String.length p)) at 1 by lia.
  replace (String.length s - (String.length s - String.length p))%nat
    with (String.length p) by lia.
  rewrite H. reflexivity.
Qed.

Lemma endswith_intro (a p : string) : endswith (a +:+ p) p = true.
Proof.
  unfold endswith. rewrite andb_true_iff, Nat.leb_le, bool_decide_eq_true.
  rewrite string_length_app. split; [lia|].
  replace (String.length a + String.length p - String.length p)%nat
    with (String.length a) by lia.
  apply substring_skip.
Qed.

(** X3. [endswith] holds exactly of the strings that are some text
    followed by the suffix, and of a string and itself; a suffix longer
    than the string is never found. *)
Theorem endswith_app (s p : string) :
  (endswith s p = true <-> exists a, s = a +:+ p) /\
  endswith s s = true /\
  ((String.length s < String.length p)%nat -> endswith s p = false).
Proof.
  split; [|split].
  - split; [apply endswith_elim | intros [a ->]; apply endswith_intro].
  - apply (endswith_intro EmptyString s).
  - intros H. unfold endswith.
    destruct (String.length p <=? String.length s)%nat eqn:E; [|reflexivity].
    apply Nat.leb_le in E. lia.
Qed.

Lemma append_cons (c : ascii) (a b : string) :
  String c a +:+ b = String c (a +:+ b).
Proof. reflexivity. Qed.

Lemma append_empty_r (a : string) : a +:+ EmptyString = a.
Proof.
  induction a as [|c a IH]; [reflexivity|]. rewrite append_cons, IH. reflexivity.
Qed.

Lemma append_snoc (a n : string) (c : ascii) :
  (a +:+ String c EmptyString) +:+ n = a +:+ String c n.
Proof.
  induction a as [|x a IH]; [reflexivity|]. rewrite !append_cons, IH. reflexivity.
Qed.

Lemma split_on_nonempty (sep : ascii) (s : string) : split_on sep s <> [].
Proof.
  destruct s as [|c s]; simpl; [discriminate|].
  destruct (bool_decide (c = sep)); [discriminate|].
  destruct (split_on sep s); discriminate.
Qed.

Lemma split_on_no_sep (sep : ascii) (n : string) :
  has_char sep n = false -> split_on sep n = [n].
Proof.
  induction n as [|c n IH]; intros H; [reflexivity|].
  simpl in H. apply orb_false_iff in H as [Hc Hn].
  simpl. rewrite Hc, (IH Hn). reflexivity.
Qed.

Lemma split_on_app (sep : ascii) (d n : string) :
  split_on sep (d +:+ String sep n) = split_on sep d ++ split_on sep n.
Proof.
  induction d as [|c d IH].
  - simpl. rewrite bool_decide_eq_true_2 by reflexivity. reflexivity.
  - rewrite append_cons. simpl. rewrite IH.
    destruct (bool_decide (c = sep)); [reflexivity|].
    pose proof (split_on_nonempty sep d) as Hd.
    destruct (split_on sep d) as [|x xs]; [congruence | reflexivity].
Qed.

Lemma path_parts_app (d n : string) :
  path_parts (d +:+ String "/" n) = path_parts d ++ path_parts n.
Proof. unfold path_parts. rewrite split_on_app. apply filter_app. Qed.

Lemma path_parts_name (n : string) :
  has_char "/" n = false -> n <> EmptyString -> n <> "." -> path_parts n = [n].
Proof.
  intros H H1 H2. unfold path_parts. rewrite (split_on_no_sep _ _ H).
  rewrite filter_cons_True by (split; assumption). reflexivity.
Qed.

Lemma path_name_snoc (d n : string) :
  has_char "/" n = false -> n <> EmptyString -> n <> "." ->
  path_name (d +:+ String "/" n) = n.
Proof.
  intros H H1 H2. unfold path_name.
  rewrite path_parts_app, (path_parts_name n H H1 H2), last_snoc. reflexivity.
Qed.

Lemma path_name_dropped (f x : string) :
  x = EmptyString \/ x = "." -> path_name (f +:+ String "/" x) = path_name f.
Proof.
  intros Hx. unfold path_name. rewrite path_parts_app.
  assert (E : path_parts x = []) by (destruct Hx as [->| ->]; reflexivity).
  rewrite E, app_nil_r. reflexivity.
Qed.

(** X4. [path_name] of a directory, a slash and a name is the name,
    whatever the directory is called, when the name is a component: it
    holds no slash and is neither empty nor ["."]. A slash at the end of a
    path, and a component ["."] at its end, do not count. So an entry, with
    or without such an ending, is skipped as a schema file exactly when its
    last component ends in [.schema.json]. *)
Theorem path_name_dir (d n : string) (l : load_result) :
  has_char "/" n = false -> n <> EmptyString -> n <> "." ->
  (path_name (d +:+ String "/" n) = n /\ path_name n = n) /\
  (forall f, path_name (f +:+ "/") = path_name f /\
             path_name (f +:+ "/.") = path_name f) /\
  (forall e, e = EmptyString \/ e = "/" \/ e = "/." ->
     (skipped (ReportFile ((d +:+ String "/" n) +:+ e) l)
      <-> exists a, n = a +:+ ".schema.json")).
Proof.
  intros H H1 H2.
  assert (E : path_name (d +:+ String "/" n) = n) by (apply path_name_snoc; assumption).
  assert (D : forall f, path_name (f +:+ "/") = path_name f /\
                        path_name (f +:+ "/.") = path_name f).
  { intros f. split; apply path_name_dropped; auto. }
  split; [split; [exact E|]|split; [exact D|]].
  - unfold path_name. rewrite (path_parts_name n H H1 H2). reflexivity.
  - intros e He. unfold skipped. cbn [file_path].
    assert (E' : path_name ((d +:+ String "/" n) +:+ e) = n).
    { destruct He as [->|[->| ->]].
      - rewrite append_empty_r. exact E.
      - rewrite (proj1 (D _)). exact E.
      - rewrite (proj2 (D _)). exact E. }
    rewrite E'. split; [apply endswith_elim | intros [a ->]; apply endswith_intro].
Qed.


(** ** Malformed intervals and NaN *)

(** X5. A list that does not have exactly two bounds: [ensure_ci_order]
    answers with the length message, whatever the bounds are, and
    [num_in_interval] raises [ValueError]. *)
Theorem interval_wrong_length (x : float) (ci : list float) (path : string) :
  length ci <> 2%nat ->
  ensure_ci_order ci path = Some [Lit path; Lit " must have length 2"] /\
  num_in_interval x ci = Raise ValueError.
Proof.
  intros H. destruct ci as [|a [|b [|c ci]]]; simpl in *; try (split; reflexivity).
  congruence.
Qed.

Lemma is_nan_Prim2SF (x : float) : is_nan x = true -> Prim2SF x = S754_nan.
Proof. intros H. unfold Prim2SF. rewrite H. reflexivity. Qed.

Lemma SFcompare_nan_r (a : spec_float) : SFcompare a S754_nan = None.
Proof. destruct a; reflexivity. Qed.

Lemma ltb_nan_l (a b : float) : Prim2SF a = S754_nan -> (a <? b)%float = false.
Proof. intros H. rewrite ltb_spec, H. reflexivity. Qed.

Lemma ltb_nan_r (a b : float) : Prim2SF b = S754_nan -> (a <? b)%float = false.
Proof. intros H. rewrite ltb_spec, H. unfold SFltb. rewrite SFcompare_nan_r. reflexivity. Qed.

Lemma leb_nan_l (a b : float) : Prim2SF a = S754_nan -> (a <=? b)%float = false.
Proof. intros H. rewrite leb_spec, H. reflexivity. Qed.

Lemma leb_nan_r (a b : float) : Prim2SF b = S754_nan -> (a <=? b)%float = false.
Proof. intros H. rewrite leb_spec, H. unfold SFleb. rewrite SFcompare_nan_r. reflexivity. Qed.

Lemma sub_nan (a b : float) :
  Prim2SF a = S754_nan \/ Prim2SF b = S754_nan -> Prim2SF (a - b) = S754_nan.
Proof.
  intros H. rewrite sub_spec. destruct H as [H|H]; rewrite H; [reflexivity|].
  destruct (Prim2SF a); reflexivity.
Qed.

Lemma add_nan_l (a b : float) : Prim2SF a = S754_nan -> Prim2SF (a + b) = S754_nan.
Proof. intros H. rewrite add_spec, H. reflexivity. Qed.

(** X6. An interval with a NaN bound passes [ensure_ci_order]: the
    comparison [lo - hi > TOL] is false of NaN, so nothing is reported. *)
Theorem ensure_ci_order_nan (lo hi : float) (path : string) :
  is_nan lo = true \/ is_nan hi = true ->
  ensure_ci_order [lo; hi] path = None.
Proof.
  intros H. unfold ensure_ci_order. rewrite ltb_nan_r; [reflexivity|].
  apply sub_nan. destruct H as [H|H]; [left | right]; apply is_nan_Prim2SF, H.
Qed.

(** X7. [num_in_interval] answers [False] as soon as the value or one of
    the bounds is NaN: a NaN is inside no interval. *)
Theorem num_in_interval_nan (x lo hi : float) :
  is_nan x = true \/ is_nan lo = true \/ is_nan hi = true ->
  num_in_interval x [lo; hi] = Ok false.
Proof.
  intros H. unfold num_in_interval. f_equal.
  destruct H as [H|[H|H]]; apply is_nan_Prim2SF in H.
  - rewrite (leb_nan_r lo); [reflexivity|]. apply add_nan_l, H.
  - rewrite (leb_nan_l lo); [reflexivity | exact H].
  - rewrite (leb_nan_r _ hi H). apply andb_false_r.
Qed.

(** X8. The two checks of one interval guard differently. A pair with an
    entry that is not a number is passed over by the ordering check; the
    value-in-interval check converts the entries without testing them, and
    the exception of the conversion escapes. A value that is not a number,
    or an interval that is not a list of two, is passed over by it. *)
Theorem interval_checks_guards (label : string) (value c0 c1 : json)
    (st : findings) :
  (is_number c0 && is_number c1 = false ->
   check_ci_order (label, JList [c0; c1]) st = Ok (tt, st)) /\
  (forall x e, numeric value x -> to_float c0 = Raise e ->
   check_required_numeric_in_ci label value (JList [c0; c1]) st = Raise e) /\
  (is_number value = false ->
   check_required_numeric_in_ci label value (JList [c0; c1]) st = Ok (tt, st)) /\
  (forall ci, (forall a b, ci <> JList [a; b]) ->
   check_required_numeric_in_ci label value ci st = Ok (tt, st) /\
   check_ci_order (label, ci) st = Ok (tt, st)).
Proof.
  split; [|split; [|split]].
  - intros H. simpl. rewrite H. reflexivity.
  - intros x e [Nv Fv] Fc. simpl. rewrite Nv. unfold bind, lift.
    rewrite Fv, Fc. reflexivity.
  - intros H. simpl. rewrite H. reflexivity.
  - intros ci H. destruct ci as [| | | | |[|a [|b [|c l]]]|]; try (split; reflexivity).
    exfalso. eapply H. reflexivity.
Qed.


(** ** The findings of a report *)

Lemma findings_app_nil_l (d : findings) : findings_app (Findings [] []) d = d.
Proof. destruct d. reflexivity. Qed.

Lemma findings_app_nil_r (st : findings) : findings_app st (Findings [] []) = st.
Proof. destruct st. unfold findings_app. simpl. rewrite !app_nil_r. reflexivity. Qed.

Lemma findings_app_assoc (a b c : findings) :
  findings_app (findings_app a b) c = findings_app a (findings_app b c).
Proof. unfold findings_app. simpl. rewrite !app_assoc. reflexivity. Qed.

Lemma appends_ret {A : Type} (a : A) : appends (ret a).
Proof. intros st. unfold ret. rewrite findings_app_nil_r. reflexivity. Qed.

Lemma appends_lift {A : Type} (r : result A) : appends (lift r).
Proof. intros st. unfold lift. destruct r; [rewrite findings_app_nil_r|]; reflexivity. Qed.

Lemma appends_append_error (m : text) : appends (append_error m).
Proof. intros st. unfold append_error, findings_app. simpl. rewrite app_nil_r. reflexivity. Qed.

Lemma appends_append_warning (m : text) : appends (append_warning m).
Proof. intros st. unfold append_warning, findings_app. simpl. rewrite app_nil_r. reflexivity. Qed.

Lemma appends_bind {A B : Type} (c : check A) (k : A -> check B) :
  appends c -> (forall a, appends (k a)) -> appends (bind c k).
Proof.
  intros Hc Hk st. unfold bind. rewrite (Hc st).
  destruct (c (Findings [] [])) as [[a d]|e]; [|reflexivity].
  rewrite (Hk a (findings_app st d)), (Hk a d).
  destruct (k a (Findings [] [])) as [[b d']|e]; [|reflexivity].
  rewrite findings_app_assoc. reflexivity.
Qed.

Lemma appends_if {A : Type} (b : bool) (c1 c2 : check A) :
  appends c1 -> appends c2 -> appends (if b then c1 else c2).
Proof. destruct b; auto. Qed.

Lemma appends_when (b : bool) (c : check unit) : appends c -> appends (when b c).
Proof. intros H. unfold when. apply appends_if; [exact H | apply appends_ret]. Qed.

Lemma appends_for_each {A : Type} (f : A -> check unit) (l : list A) :
  (forall x, appends (f x)) -> appends (for_each f l).
Proof.
  intros Hf. induction l as [|x l IH]; simpl; [apply appends_ret|].
  apply appends_bind; auto.
Qed.

Ltac appends_tac :=
  repeat first
    [ apply appends_ret | apply appends_lift | apply appends_append_error
    | apply appends_append_warning | apply appends_when
    | apply appends_bind; [|intros ?] | apply appends_if ].

Lemma appends_check_required_numeric_in_ci (label : string) (value ci : json) :
  appends (check_required_numeric_in_ci label value ci).
Proof.
  unfold check_required_numeric_in_ci.
  destruct ci as [| | | | |[|a [|b [|c l]]]|]; appends_tac.
Qed.

Lemma appends_check_count (report : json) : appends (check_count report).
Proof.
  unfold check_count.
  destruct (as_int _) as [n|]; [destruct (as_int _) as [i|]|]; appends_tac.
Qed.

Lemma appends_check_ci_order (entry : string * json) : appends (check_ci_order entry).
Proof.
  destruct entry as [label ci]. unfold check_ci_order.
  destruct ci as [| | | | |[|a [|b [|c l]]]|]; appends_tac.
  destruct (ensure_ci_order _ _); appends_tac.
Qed.

Lemma appends_check_thresholds (thr : json) : appends (check_thresholds thr).
Proof.
  unfold check_thresholds, thresholds_monotonic. destruct thr; appends_tac.
Qed.

Lemma appends_check_forbidden (cfg : config) (cls : json) :
  appends (check_forbidden cfg cls).
Proof. unfold check_forbidden. destruct cls; appends_tac. Qed.

Lemma appends_check_classification (cfg : config) (baseline : gmap string json)
    (thr cls : json) :
  appends (check_classification cfg baseline thr cls).
Proof. unfold check_classification. destruct thr, cls; appends_tac. Qed.

Lemma appends_baseline_invariants (cfg : config) (baseline : gmap string json) :
  appends (baseline_invariants cfg baseline).
Proof.
  unfold baseline_invariants.
  repeat (apply appends_bind; [|intros ?]);
    auto using appends_check_required_numeric_in_ci, appends_check_thresholds,
      appends_check_forbidden, appends_check_classification.
Qed.

Lemma appends_check_disclaimer (cfg : config) (notes : json) :
  appends (check_disclaimer cfg notes).
Proof. unfold check_disclaimer. appends_tac. Qed.

(** X9. The invariant checks only append, and what they append does not
    depend on the findings gathered so far: from any findings, the checks of
    a report give those findings followed by the ones they give from none,
    and they raise exactly when they raise from none. No check removes or
    reorders an earlier finding. *)
Theorem extra_invariants_appends (cfg : config) (report : json) (st : findings) :
  extra_invariants cfg report st =
  match extra_invariants cfg report (Findings [] []) with
  | Ok (a, d) => Ok (a, findings_app st d)
  | Raise e => Raise e
  end.
Proof.
  revert st. change (appends (extra_invariants cfg report)).
  unfold extra_invariants.
  apply appends_bind; [apply appends_check_count | intros _].
  apply appends_bind; [apply appends_for_each, appends_check_ci_order | intros _].
  do 3 (apply appends_bind; [apply appends_check_required_numeric_in_ci | intros _]).
  apply appends_bind; [apply appends_lift | intros baseline].
  apply appends_bind.
  - destruct baseline; auto using appends_ret, appends_baseline_invariants.
  - intros _. apply appends_bind; [apply appends_lift | intros notes].
    apply appends_check_disclaimer.
Qed.


Lemma errors_only_ret {A : Type} (a : A) : errors_only (ret a).
Proof. intros st b st' H. inversion H. reflexivity. Qed.

Lemma errors_only_lift {A : Type} (r : result A) : errors_only (lift r).
Proof. intros st b st' H. destruct r; inversion H. reflexivity. Qed.

Lemma errors_only_append_error (m : text) : errors_only (append_error m).
Proof. intros st b st' H. inversion H. reflexivity. Qed.

Lemma errors_only_bind {A B : Type} (c : check A) (k : A -> check B) :
  errors_only c -> (forall a, errors_only (k a)) -> errors_only (bind c k).
Proof.
  intros Hc Hk st b st' H. apply bind_Ok in H as (a & st1 & H1 & H2).
  rewrite (Hk a _ _ _ H2). apply (Hc _ _ _ H1).
Qed.

Lemma errors_only_if {A : Type} (b : bool) (c1 c2 : check A) :
  errors_only c1 -> errors_only c2 -> errors_only (if b then c1 else c2).
Proof. destruct b; auto. Qed.

Lemma errors_only_when (b : bool) (c : check unit) :
  errors_only c -> errors_only (when b c).
Proof. intros H. unfold when. apply errors_only_if; [exact H | apply errors_only_ret]. Qed.

Lemma errors_only_for_each {A : Type} (f : A -> check unit) (l : list A) :
  (forall x, errors_only (f x)) -> errors_only (for_each f l).
Proof.
  intros Hf. induction l as [|x l IH]; simpl; [apply errors_only_ret|].
  apply errors_only_bind; auto.
Qed.

Ltac errors_only_tac :=
  repeat first
    [ apply errors_only_ret | apply errors_only_lift | apply errors_only_append_error
    | apply errors_only_when | apply errors_only_bind; [|intros ?]
    | apply errors_only_if ].

Lemma errors_only_check_required_numeric_in_ci (label : string) (value ci : json) :
  errors_only (check_required_numeric_in_ci label value ci).
Proof.
  unfold check_required_numeric_in_ci.
  destruct ci as [| | | | |[|a [|b [|c l]]]|]; errors_only_tac.
Qed.

Lemma errors_only_check_count (report : json) : errors_only (check_count report).
Proof.
  unfold check_count.
  destruct (as_int _) as [n|]; [destruct (as_int _) as [i|]|]; errors_only_tac.
Qed.

Lemma errors_only_check_ci_order (entry : string * json) :
  errors_only (check_ci_order entry).
Proof.
  destruct entry as [label ci]. unfold check_ci_order.
  destruct ci as [| | | | |[|a [|b [|c l]]]|]; errors_only_tac.
  destruct (ensure_ci_order _ _); errors_only_tac.
Qed.

Lemma errors_only_baseline_invariants (cfg : config) (baseline : gmap string json) :
  errors_only (baseline_invariants cfg baseline).
Proof.
  unfold baseline_invariants.
  apply errors_only_bind; [apply errors_only_check_required_numeric_in_ci | intros _].
  apply errors_only_bind; [|intros _].
  { unfold check_thresholds, thresholds_monotonic.
    destruct (dict_get baseline "thresholds"); errors_only_tac. }
  apply errors_only_bind; [|intros _].
  { unfold check_forbidden.
    destruct (dict_get baseline "classification"); errors_only_tac. }
  unfold check_classification.
  destruct (dict_get baseline "thresholds"), (dict_get baseline "classification");
    errors_only_tac.
Qed.

(** The checks of [extra_invariants] that come before the disclaimer check. *)
Lemma extra_invariants_Ok (cfg : config) (d : gmap string json) (st fs : findings) :
  extra_invariants cfg (JDict d) st = Ok (tt, fs) ->
  exists st', extra_warnings st' = extra_warnings st /\
              check_disclaimer cfg (dict_get d "notes") st' = Ok (tt, fs).
Proof.
  intros H. unfold extra_invariants in H.
  apply bind_Ok in H as (? & st1 & H1 & H).
  apply bind_Ok in H as (? & st2 & H2 & H).
  apply bind_Ok in H as (? & st3 & H3 & H).
  apply bind_Ok in H as (? & st4 & H4 & H).
  apply bind_Ok in H as (? & st5 & H5 & H).
  apply bind_Ok in H as (baseline & st6 & H6 & H).
  apply bind_Ok in H as (? & st7 & H7 & H).
  apply bind_Ok in H as (notes & st8 & H8 & H).
  apply lift_Ok in H6 as [H6 ->]. apply lift_Ok in H8 as [H8 ->].
  simpl in H8. inversion H8; subst notes.
  exists st7. split; [|exact H].
  apply errors_only_check_count in H1.
  apply (errors_only_for_each _ _ errors_only_check_ci_order) in H2.
  apply errors_only_check_required_numeric_in_ci in H3, H4, H5.
  assert (extra_warnings st7 = extra_warnings st5) as ->.
  { destruct baseline; try (inversion H7; reflexivity).
    apply errors_only_baseline_invariants in H7. exact H7. }
  congruence.
Qed.

(** X10. The only warning a report can get is the missing-disclaimer one:
    when its checks end, the warnings are those it started with, followed
    by that single message when the notes lack the disclaimer and the
    disclaimer is not required, and by nothing otherwise. With
    [REQUIRE_DISCLAIMER] on, no report has a warning. *)
Theorem extra_invariants_warnings (cfg : config) (d : gmap string json)
    (st fs : findings) :
  extra_invariants cfg (JDict d) st = Ok (tt, fs) ->
  extra_warnings fs =
  extra_warnings st ++
  (if negb (has_required_disclaimer (dict_get d "notes"))
      && negb (require_disclaimer cfg)
   then [disclaimer_msg] else []).
Proof.
  intros H. apply extra_invariants_Ok in H as (st' & Hw & H).
  unfold check_disclaimer in H. rewrite <- Hw.
  destruct (has_required_disclaimer (dict_get d "notes")); simpl in *.
  - inversion H. rewrite app_nil_r. reflexivity.
  - destruct (require_disclaimer cfg); inversion H; simpl;
      [rewrite app_nil_r|]; reflexivity.
Qed.


Lemma appends_Ok {A : Type} (c : check A) (st : findings) (a : A) (st' : findings) :
  appends c -> c st = Ok (a, st') -> exists d, st' = findings_app st d.
Proof.
  intros Hc H. rewrite (Hc st) in H.
  destruct (c (Findings [] [])) as [[b d]|e]; inversion H. eauto.
Qed.

Lemma appends_keeps_error {A : Type} (c : check A) (st : findings) (a : A)
    (st' : findings) (m : text) :
  appends c -> c st = Ok (a, st') -> In m (extra_errors st) -> In m (extra_errors st').
Proof.
  intros Hc H Hin. destruct (appends_Ok c st a st' Hc H) as [d ->].
  simpl. apply in_or_app. auto.
Qed.

(** X11. A report whose baseline classification is one of the forbidden
    labels never passes: whenever its checks end, the findings hold the
    forbidden-classification error naming the label, whatever the
    distance, the thresholds and strict mode are. *)
Theorem forbidden_classification_reported (cfg : config)
    (d baseline : gmap string json) (c f : string) (st fs : findings) :
  d !! "baseline" = Some (JDict baseline) ->
  baseline !! "classification" = Some (JStr c) ->
  c ∈ forbid cfg ->
  extra_invariants cfg (JDict d) st = Ok (tt, fs) ->
  In [Lit "Forbidden baseline.classification='"; Lit c; Lit "'"] (extra_errors fs) /\
  snd (emit_findings cfg f fs) = true.
Proof.
  intros Hb Hc Hf H.
  assert (Hin : In [Lit "Forbidden baseline.classification='"; Lit c; Lit "'"]
                   (extra_errors fs)).
  { unfold extra_invariants in H.
    do 5 (apply bind_Ok in H as (? & ? & _ & H)).
    apply bind_Ok in H as (b & st6 & H6 & H).
    apply lift_Ok in H6 as [H6 ->]. simpl in H6.
    rewrite (dict_get_Some _ _ _ Hb) in H6. inversion H6; subst b.
    apply bind_Ok in H as (? & st7 & H7 & H).
    apply (appends_keeps_error _ _ _ _ _
             (appends_bind _ _ (appends_lift _)
                (fun notes => appends_check_disclaimer cfg notes)) H).
    unfold baseline_invariants in H7.
    do 2 (apply bind_Ok in H7 as (? & ? & _ & H7)).
    apply bind_Ok in H7 as (? & st' & Hforbid & H7).
    apply (appends_keeps_error _ _ _ _ _ (appends_check_classification _ _ _ _) H7).
    rewrite (dict_get_Some _ _ _ Hc) in Hforbid. unfold check_forbidden in Hforbid.
    rewrite bool_decide_eq_true_2 in Hforbid by exact Hf.
    inversion Hforbid. simpl. apply in_or_app. right. left. reflexivity. }
  split; [exact Hin|].
  unfold emit_findings. destruct (extra_errors fs); [destruct Hin | reflexivity].
Qed.

Lemma raises_only_ret {A : Type} (P : exn -> Prop) (a : A) : raises_only P (ret a).
Proof. intros st e H. discriminate H. Qed.

Lemma raises_only_append_error (P : exn -> Prop) (m : text) :
  raises_only P (append_error m).
Proof. intros st e H. discriminate H. Qed.

Lemma raises_only_append_warning (P : exn -> Prop) (m : text) :
  raises_only P (append_warning m).
Proof. intros st e H. discriminate H. Qed.

Lemma raises_only_lift {A : Type} (P : exn -> Prop) (r : result A) :
  (forall e, r = Raise e -> P e) -> raises_only P (lift r).
Proof.
  intros Hr st e H. unfold lift in H. destruct r as [a|e']; [discriminate H|].
  inversion H; subst. apply Hr. reflexivity.
Qed.

Lemma raises_only_bind {A B : Type} (P : exn -> Prop) (c : check A)
    (k : A -> check B) :
  raises_only P c -> (forall a, raises_only P (k a)) -> raises_only P (bind c k).
Proof.
  intros Hc Hk st e H. unfold bind in H.
  destruct (c st) as [[a st']|e'] eqn:E.
  - exact (Hk a st' e H).
  - inversion H; subst. exact (Hc st e E).
Qed.

Lemma raises_only_if {A : Type} (P : exn -> Prop) (b : bool) (c1 c2 : check A) :
  raises_only P c1 -> raises_only P c2 -> raises_only P (if b then c1 else c2).
Proof. destruct b; auto. Qed.

Lemma raises_only_when (P : exn -> Prop) (b : bool) (c : check unit) :
  raises_only P c -> raises_only P (when b c).
Proof. intros H. unfold when. apply raises_only_if; [exact H | apply raises_only_ret]. Qed.

Lemma raises_only_for_each {A : Type} (P : exn -> Prop) (f : A -> check unit)
    (l : list A) :
  (forall x, raises_only P (f x)) -> raises_only P (for_each f l).
Proof.
  intros Hf. induction l as [|x l IH]; simpl; [apply raises_only_ret|].
  apply raises_only_bind; auto.
Qed.

Ltac raises_only_tac :=
  repeat first
    [ apply raises_only_ret | apply raises_only_append_error
    | apply raises_only_append_warning | apply raises_only_when
    | apply raises_only_lift; [intros ? ?]
    | apply raises_only_bind; [|intros ?] | apply raises_only_if ].

Lemma raises_only_check_required_numeric_in_ci (label : string) (value ci : json) :
  raises_only float_error (check_required_numeric_in_ci label value ci).
Proof.
  unfold check_required_numeric_in_ci.
  destruct ci as [| | | | |[|a [|b [|c l]]]|]; raises_only_tac;
    try (eapply to_float_raises; eassumption).
Qed.

Lemma raises_only_check_count (report : json) :
  raises_only float_error (check_count report).
Proof.
  unfold check_count.
  destruct (as_int _) as [n|]; [destruct (as_int _) as [i|]|]; raises_only_tac.
Qed.

Lemma raises_only_check_ci_order (entry : string * json) :
  raises_only float_error (check_ci_order entry).
Proof.
  destruct entry as [label ci]. unfold check_ci_order.
  destruct ci as [| | | | |[|a [|b [|c l]]]|]; raises_only_tac;
    try (eapply to_float_raises; eassumption).
  destruct (ensure_ci_order _ _); raises_only_tac.
Qed.

Lemma raises_only_check_thresholds (thr : json) :
  raises_only float_error (check_thresholds thr).
Proof.
  unfold check_thresholds, thresholds_monotonic. destruct thr; raises_only_tac;
    try (eapply to_float_raises; eassumption).
Qed.

Lemma raises_only_check_forbidden (cfg : config) (cls : json) :
  raises_only float_error (check_forbidden cfg cls).
Proof. unfold check_forbidden. destruct cls; raises_only_tac. Qed.

Lemma raises_only_check_classification (cfg : config) (baseline : gmap string json)
    (thr cls : json) :
  raises_only float_error (check_classification cfg baseline thr cls).
Proof.
  unfold check_classification. destruct thr, cls; raises_only_tac;
    try (eapply to_float_raises; eassumption).
Qed.

Lemma raises_only_baseline_invariants (cfg : config) (baseline : gmap string json) :
  raises_only float_error (baseline_invariants cfg baseline).
Proof.
  unfold baseline_invariants.
  repeat (apply raises_only_bind; [|intros ?]);
    auto using raises_only_check_required_numeric_in_ci, raises_only_check_thresholds,
      raises_only_check_forbidden, raises_only_check_classification.
Qed.

Lemma raises_only_check_disclaimer (cfg : config) (notes : json) :
  raises_only float_error (check_disclaimer cfg notes).
Proof. unfold check_disclaimer. raises_only_tac. Qed.

Lemma raises_only_extra_invariants (cfg : config) (d : gmap string json) :
  raises_only float_error (extra_invariants cfg (JDict d)).
Proof.
  unfold extra_invariants.
  apply raises_only_bind; [apply raises_only_check_count | intros _].
  apply raises_only_bind;
    [apply raises_only_for_each, raises_only_check_ci_order | intros _].
  apply raises_only_bind;
    [apply raises_only_check_required_numeric_in_ci | intros _].
  apply raises_only_bind;
    [apply raises_only_check_required_numeric_in_ci | intros _].
  apply raises_only_bind;
    [apply raises_only_check_required_numeric_in_ci | intros _].
  apply raises_only_bind; [apply raises_only_lift; discriminate | intros baseline].
  apply raises_only_bind.
  { destruct baseline; try apply raises_only_ret.
    apply raises_only_baseline_invariants. }
  intros _.
  apply raises_only_bind; [apply raises_only_lift; discriminate | intros notes].
  apply raises_only_check_disclaimer.
Qed.

(** X12. The invariant checks raise [AttributeError] exactly on a report
    that is not a JSON object: the lookups by path find nothing in it, so
    no finding is made, and then [report.get] is called on it. On a JSON
    object the only exceptions are those of [float]: [TypeError],
    [ValueError] and [OverflowError]. *)
Theorem extra_invariants_not_dict (cfg : config) (report : json) (st : findings) :
  (extra_invariants cfg report st = Raise AttributeError <->
   forall d, report <> JDict d) /\
  (forall d e, report = JDict d -> extra_invariants cfg report st = Raise e ->
     e = TypeError \/ e = ValueError \/ e = OverflowError).
Proof.
  split; [split|].
  - intros H d ->. apply raises_only_extra_invariants in H.
    destruct H as [H|[H|H]]; discriminate H.
  - intros H. destruct report; try reflexivity. exfalso. eapply H. reflexivity.
  - intros d e -> H. exact (raises_only_extra_invariants cfg d st e H).
Qed.

Lemma get_nested_other (d : gmap string json) (v : json) (k : string)
    (ks : list string) :
  k <> "baseline" ->
  get_nested (JDict (<["baseline" := v]> d)) (k :: ks)
  = get_nested (JDict (delete "baseline" d)) (k :: ks).
Proof.
  intros Hk. simpl. rewrite lookup_insert_ne, lookup_delete_ne by congruence.
  reflexivity.
Qed.

(** X13. A [baseline] that is not an object counts as no baseline: the
    checks of a report do the same with [baseline] set to [null], or to any
    value that is not a dict, as with the key removed. *)
Theorem baseline_not_dict_as_absent (cfg : config) (d : gmap string json)
    (v : json) (st : findings) :
  (forall b, v <> JDict b) ->
  extra_invariants cfg (JDict (<["baseline" := v]> d)) st
  = extra_invariants cfg (JDict (delete "baseline" d)) st.
Proof.
  intros Hv. unfold extra_invariants, check_count, ci_paths.
  assert (E1 : get_nested (JDict (<["baseline" := v]> d)) ["baseline"; "distance_ci95"]
               = JNull).
  { simpl. rewrite lookup_insert_eq. destruct v; try reflexivity.
    exfalso. eapply Hv. reflexivity. }
  assert (E2 : get_nested (JDict (delete "baseline" d)) ["baseline"; "distance_ci95"]
               = JNull).
  { simpl. rewrite lookup_delete_eq. reflexivity. }
  rewrite E1, E2. rewrite !get_nested_other by discriminate.
  unfold py_get, dict_get.
  rewrite lookup_insert_eq, lookup_delete_eq.
  rewrite lookup_insert_ne, lookup_delete_ne by discriminate.
  destruct v; try reflexivity. exfalso. eapply Hv. reflexivity.
Qed.

(** X14. After [inject_default_profile], a report whose [spec] is a dict
    holds a string under [spec.profile]: the one it had when that was a
    non-empty string, the default otherwise; the string is not empty when
    the default is not. *)
Theorem inject_default_profile_string (report spec : gmap string json)
    (dp : string) :
  report !! "spec" = Some (JDict spec) ->
  exists spec' s,
    inject_default_profile report dp !! "spec" = Some (JDict spec') /\
    spec' !! "profile" = Some (JStr s) /\
    (has_profile spec -> spec !! "profile" = Some (JStr s)) /\
    (~ has_profile spec -> s = dp) /\
    (dp <> EmptyString -> s <> EmptyString).
Proof.
  intros Hs. unfold inject_default_profile. rewrite Hs.
  destruct (profile_missing spec) eqn:M.
  - exists (<["profile" := JStr dp]> spec), dp.
    rewrite !lookup_insert_eq. apply profile_missing_true in M.
    split; [reflexivity|]. split; [reflexivity|]. split; [|split].
    + intros Hp. exfalso. exact (M Hp).
    + reflexivity.
    + exact (fun H => H).
  - pose proof (proj1 (profile_missing_false spec) M) as (s & Hp & Hne).
    exists spec, s. repeat split; auto.
    intros Hn. exfalso. apply Hn. exists s. auto.
Qed.


(** ** Batches *)

Lemma run_files_flag (cfg : config) (schema : json) (fs : list report_file) :
  forall b,
    run_files cfg schema fs b =
    match run_files cfg schema fs false with
    | (out, Ok failed) => (out, Ok (b || failed))
    | (out, Raise e) => (out, Raise e)
    end.
Proof.
  induction fs as [|rf fs IH]; intros b; simpl.
  - rewrite orb_false_r. reflexivity.
  - destruct (process_file cfg schema rf) as [out [failed|e]]; [|reflexivity].
    rewrite (IH (b || failed)), (IH failed).
    destruct (run_files cfg schema fs false) as [out' [failed'|e]]; [|reflexivity].
    rewrite orb_assoc. reflexivity.
Qed.

Lemma run_files_app_flag (cfg : config) (schema : json) (fs1 fs2 : list report_file) :
  forall b,
    run_files cfg schema (fs1 ++ fs2) b =
    match run_files cfg schema fs1 b with
    | (out1, Ok b1) =>
        let '(out2, r) := run_files cfg schema fs2 b1 in (out1 ++ out2, r)
    | (out1, Raise e) => (out1, Raise e)
    end.
Proof.
  induction fs1 as [|rf fs1 IH]; intros b; simpl.
  - destruct (run_files cfg schema fs2 b). reflexivity.
  - destruct (process_file cfg schema rf) as [out [failed|e]]; [|reflexivity].
    rewrite IH.
    destruct (run_files cfg schema fs1 (b || failed)) as [out1 [b1|e]]; [|reflexivity].
    destruct (run_files cfg schema fs2 b1) as [out2 r].
    rewrite app_assoc. reflexivity.
Qed.

(** X15. A batch is processed file by file, and a failed file stops
    nothing: the lines of [fs1 ++ fs2] are the lines of [fs1] followed by
    the lines of [fs2] run on their own, and the batch has failed exactly
    when one of the two has. Only an exception ends the loop: the files
    after the one that raises are not processed. *)
Theorem run_files_app (cfg : config) (schema : json) (fs1 fs2 : list report_file) :
  run_files cfg schema (fs1 ++ fs2) false =
  match run_files cfg schema fs1 false with
  | (out1, Raise e) => (out1, Raise e)
  | (out1, Ok failed1) =>
      match run_files cfg schema fs2 false with
      | (out2, Ok failed2) => (out1 ++ out2, Ok (failed1 || failed2))
      | (out2, Raise e) => (out1 ++ out2, Raise e)
      end
  end.
Proof.
  rewrite run_files_app_flag.
  destruct (run_files cfg schema fs1 false) as [out1 [failed1|e]]; [|reflexivity].
  rewrite (run_files_flag cfg schema fs2 failed1).
  destruct (run_files cfg schema fs2 false) as [out2 [failed2|e]]; reflexivity.
Qed.

Lemma run_files_skip (cfg : config) (schema : json) (rf : report_file)
    (fs1 fs2 : list report_file) (b : bool) :
  skipped rf ->
  run_files cfg schema (fs1 ++ rf :: fs2) b = run_files cfg schema (fs1 ++ fs2) b.
Proof.
  intros H. rewrite !run_files_app_flag.
  destruct (run_files cfg schema fs1 b) as [out1 [b1|e]]; [|reflexivity].
  simpl. unfold process_file. unfold skipped in H. rewrite H.
  rewrite orb_false_r. destruct (run_files cfg schema fs2 b1). reflexivity.
Qed.

Lemma main_writes_ignores_schema_files (cfg : config) (schema_ok : bool)
    (schema : load_result) (opens : string -> bool) (rf : report_file)
    (fs1 fs2 : list report_file) :
  skipped rf ->
  fs1 ++ fs2 <> [] ->
  main_writes (World schema_ok schema (fs1 ++ rf :: fs2) opens) cfg
  = main_writes (World schema_ok schema (fs1 ++ fs2) opens) cfg.
Proof.
  intros Hs Hne. unfold main_writes. cbn [schema_exists schema_load files].
  destruct schema_ok; [|reflexivity]. cbn [negb].
  destruct schema as [sch|e]; [|reflexivity].
  pose proof (run_files_skip cfg sch rf fs1 fs2 false Hs) as E.
  destruct (fs1 ++ rf :: fs2) as [|x l] eqn:E1.
  { destruct fs1; discriminate. }
  destruct (fs1 ++ fs2) as [|y l'] eqn:E2; [congruence|].
  cbv beta iota. rewrite E. reflexivity.
Qed.

(** X16. A file named as a schema is invisible to the run: put anywhere in
    a batch that has another file, whatever it holds, it changes neither
    the lines written nor the exit status, whether the summary file opens
    or not. *)
Theorem main_ignores_schema_files (cfg : config) (schema_ok : bool)
    (schema : load_result) (opens : string -> bool) (rf : report_file)
    (fs1 fs2 : list report_file) :
  skipped rf ->
  fs1 ++ fs2 <> [] ->
  main (World schema_ok schema (fs1 ++ rf :: fs2) opens) cfg
  = main (World schema_ok schema (fs1 ++ fs2) opens) cfg.
Proof.
  intros Hs Hne. unfold main.
  rewrite (main_writes_ignores_schema_files cfg schema_ok schema opens rf fs1 fs2 Hs Hne).
  reflexivity.
Qed.



(** ** The summary *)

Lemma stdout_of_app (l1 l2 : list event) :
  stdout_of (l1 ++ l2) = stdout_of l1 ++ stdout_of l2.
Proof. apply List.filter_app. Qed.

Lemma stdout_of_write_summary_line (cfg : config) (line : text) :
  stdout_of (write_summary_line cfg line) = [].
Proof.
  unfold write_summary_line. destruct (GITHUB_STEP_SUMMARY cfg); [|reflexivity].
  case_bool_decide; reflexivity.
Qed.

Lemma stdout_of_summary_items {A : Type} (cfg : config) (item : A -> text)
    (l : list A) :
  stdout_of (summary_items cfg item l) = [].
Proof.
  unfold summary_items. rewrite stdout_of_app.
  assert (E : forall l', stdout_of (flat_map (fun x => write_summary_line cfg (item x)) l') = []).
  { induction l' as [|x l' IH]; [reflexivity|]. simpl.
    rewrite stdout_of_app, stdout_of_write_summary_line. exact IH. }
  rewrite E. destruct (25 <? length l)%nat; [apply stdout_of_write_summary_line | reflexivity].
Qed.

Lemma summary_items_none {A : Type} (cfg : config) (item : A -> text) (l : list A) :
  summary_items (with_summary cfg None) item l = [].
Proof.
  unfold summary_items.
  assert (E : forall l', flat_map (fun x => write_summary_line (with_summary cfg None) (item x)) l' = []).
  { induction l' as [|x l' IH]; [reflexivity | exact IH]. }
  rewrite E. destruct (25 <? length l)%nat; reflexivity.
Qed.

Lemma stdout_of_map {A : Type} (f : A -> event) (l : list A) :
  (forall x, is_stdout (f x) = true) -> stdout_of (map f l) = map f l.
Proof.
  intros H. induction l as [|x l IH]; [reflexivity|].
  simpl. unfold stdout_of in *. simpl. rewrite H, IH. reflexivity.
Qed.

Ltac stdout_tac :=
  rewrite ?stdout_of_app, ?stdout_of_write_summary_line, ?stdout_of_summary_items,
    ?summary_items_none, ?app_nil_r;
  rewrite ?stdout_of_map by reflexivity.

Lemma emit_invalid_json_stdout (cfg : config) (f e : string) :
  emit_invalid_json (with_summary cfg None) f e = stdout_of (emit_invalid_json cfg f e).
Proof. unfold emit_invalid_json. stdout_tac. reflexivity. Qed.

Lemma emit_schema_errors_stdout (cfg : config) (f : string) (errors : list schema_error) :
  emit_schema_errors (with_summary cfg None) f errors
  = stdout_of (emit_schema_errors cfg f errors).
Proof. unfold emit_schema_errors. stdout_tac. reflexivity. Qed.

Lemma emit_extra_errors_stdout (cfg : config) (f : string) (errors : list text) :
  emit_extra_errors (with_summary cfg None) f errors
  = stdout_of (emit_extra_errors cfg f errors).
Proof. unfold emit_extra_errors. stdout_tac. reflexivity. Qed.

Lemma emit_findings_stdout (cfg : config) (f : string) (fs : findings) :
  emit_findings (with_summary cfg None) f fs
  = (stdout_of (fst (emit_findings cfg f fs)), snd (emit_findings cfg f fs)).
Proof.
  unfold emit_findings. destruct (nonempty (extra_errors fs)); cbn [fst snd].
  - rewrite emit_extra_errors_stdout. reflexivity.
  - f_equal. unfold emit_ok, emit_extra_warnings.
    destruct (nonempty (extra_warnings fs)); stdout_tac; reflexivity.
Qed.

Lemma process_file_stdout (cfg : config) (schema : json) (rf : report_file) :
  process_file (with_summary cfg None) schema rf
  = (stdout_of (fst (process_file cfg schema rf)), snd (process_file cfg schema rf)).
Proof.
  unfold process_file.
  destruct (endswith (path_name (file_path rf)) ".schema.json"); [reflexivity|].
  destruct (file_load rf) as [report|e]; cbn [fst snd].
  2:{ rewrite emit_invalid_json_stdout. reflexivity. }
  unfold validate_report. cbn [snd].
  change (inject_if_dict (with_summary cfg None) report) with (inject_if_dict cfg report).
  destruct (nonempty (sorted_iter_errors schema (inject_if_dict cfg report))).
  { rewrite emit_schema_errors_stdout. reflexivity. }
  change (extra_invariants (with_summary cfg None)) with (extra_invariants cfg).
  destruct (extra_invariants cfg (inject_if_dict cfg report) (Findings [] []))
    as [[[] fs]|e]; [|reflexivity].
  rewrite emit_findings_stdout.
  destruct (emit_findings cfg (file_path rf) fs). reflexivity.
Qed.

Lemma run_files_stdout (cfg : config) (schema : json) (fs : list report_file) :
  forall b,
    run_files (with_summary cfg None) schema fs b
    = (stdout_of (fst (run_files cfg schema fs b)), snd (run_files cfg schema fs b)).
Proof.
  induction fs as [|rf fs IH]; intros b; [reflexivity|].
  simpl. rewrite process_file_stdout.
  destruct (process_file cfg schema rf) as [out [failed|e]]; cbn [fst snd]; [|reflexivity].
  rewrite IH. destruct (run_files cfg schema fs (b || failed)) as [out' r].
  cbn [fst snd]. rewrite stdout_of_app. reflexivity.
Qed.

Lemma summary_header_stdout (cfg : config) :
  summary_header (with_summary cfg None) = stdout_of (summary_header cfg).
Proof.
  transitivity (@nil event).
  - unfold summary_header.
    change (forbid (with_summary cfg None)) with (forbid cfg).
    destruct (nonempty (forbid cfg)); reflexivity.
  - unfold summary_header. stdout_tac.
    destruct (nonempty (forbid cfg)); stdout_tac; reflexivity.
Qed.

Lemma main_writes_stdout (w : world) (cfg : config) :
  main_writes w (with_summary cfg None)
  = (stdout_of (fst (main_writes w cfg)), snd (main_writes w cfg)).
Proof.
  unfold main_writes. destruct (schema_exists w); cbn [negb]; [|reflexivity].
  destruct (schema_load w) as [schema|e]; [|reflexivity].
  destruct (files w) as [|rf fs] eqn:F.
  { cbn [fst snd]. f_equal.
    change (stdout_of (?a :: ?l)) with (a :: stdout_of l).
    rewrite stdout_of_write_summary_line. reflexivity. }
  rewrite run_files_stdout.
  destruct (run_files cfg schema (rf :: fs) false) as [out r]. cbn [fst snd].
  rewrite stdout_of_app, summary_header_stdout. reflexivity.
Qed.

Lemma before_summary_stdout (evs : list event) :
  stdout_of (fst (before_summary evs)) = fst (before_summary evs) /\
  (exists rest, stdout_of evs = fst (before_summary evs) ++ rest) /\
  (snd (before_summary evs) = false -> fst (before_summary evs) = evs).
Proof.
  induction evs as [|[line|line] evs (IH1 & [rest IH2] & IH3)].
  - split; [reflexivity|]. split; [exists []; reflexivity | reflexivity].
  - cbn [before_summary]. destruct (before_summary evs) as [written found].
    cbn [fst snd] in *. split; [|split].
    + change (stdout_of (Stdout line :: written)) with (Stdout line :: stdout_of written).
      rewrite IH1. reflexivity.
    + exists rest.
      change (stdout_of (Stdout line :: evs)) with (Stdout line :: stdout_of evs).
      rewrite IH2. reflexivity.
    + intros H. rewrite (IH3 H). reflexivity.
  - cbn [before_summary fst snd]. split; [reflexivity|].
    split; [eexists; reflexivity | discriminate].
Qed.

(** X18. The summary file is a side channel as long as it can be written.
    A run without a summary file writes the standard-output lines that the
    body of [main] issues and ends as the body does. A run whose summary
    file opens, or is not named, writes the same standard-output lines, in
    the same order, and ends with the same status. A run whose summary file
    does not open writes a first part of those lines, no summary line, and
    ends either as the run without summary does, or with [OSError]. *)
Theorem main_without_summary (w : world) (cfg : config) :
  main w (with_summary cfg None)
  = (stdout_of (fst (main_writes w cfg)), snd (main_writes w cfg)) /\
  (summary_ok w cfg = true ->
   fst (main w (with_summary cfg None)) = stdout_of (fst (main w cfg)) /\
   snd (main w (with_summary cfg None)) = snd (main w cfg)) /\
  (summary_ok w cfg = false ->
   (exists rest, fst (main w (with_summary cfg None)) = fst (main w cfg) ++ rest) /\
   stdout_of (fst (main w cfg)) = fst (main w cfg) /\
   (snd (main w cfg) = snd (main w (with_summary cfg None)) \/
    snd (main w cfg) = Uncaught OSError)).
Proof.
  assert (E : main w (with_summary cfg None)
              = (stdout_of (fst (main_writes w cfg)), snd (main_writes w cfg))).
  { rewrite (main_summary_ok w _ (summary_ok_unset w cfg)). apply main_writes_stdout. }
  split; [exact E|]. rewrite E. cbn [fst snd]. split.
  - intros Hs. rewrite (main_summary_ok w cfg Hs). split; reflexivity.
  - intros Hs. unfold main. rewrite Hs.
    destruct (main_writes w cfg) as [evs status]. cbn [fst snd].
    destruct (before_summary_stdout evs) as (H1 & [rest H2] & H3).
    destruct (before_summary evs) as [written [|]]; cbn [fst snd] in *.
    + split; [exists rest; exact H2|]. split; [exact H1 | right; reflexivity].
    + rewrite (H3 eq_refl) in *. split; [exists rest; exact H2|].
      split; [exact H1 | left; reflexivity].
Qed.


Lemma write_summary_line_on (cfg : config) (p : string) (line : text) :
  GITHUB_STEP_SUMMARY cfg = Some p -> p <> EmptyString ->
  write_summary_line cfg line = [SummaryLine line].
Proof.
  intros H Hp. unfold write_summary_line. rewrite H.
  rewrite bool_decide_eq_false_2 by exact Hp. reflexivity.
Qed.

Lemma length_summary_items {A : Type} (cfg : config) (p : string) (item : A -> text)
    (l : list A) :
  GITHUB_STEP_SUMMARY cfg = Some p -> p <> EmptyString ->
  length (summary_items cfg item l)
  = (Nat.min 25 (length l) + (if (25 <? length l)%nat then 1 else 0))%nat.
Proof.
  intros H Hp. unfold summary_items. rewrite length_app.
  assert (E : forall l', length (flat_map (fun x => write_summary_line cfg (item x)) l')
                         = length l').
  { induction l' as [|x l' IH]; [reflexivity|]. simpl.
    rewrite (write_summary_line_on cfg p _ H Hp). simpl. rewrite IH. reflexivity. }
  rewrite E, length_firstn.
  destruct (25 <? length l)%nat; [|reflexivity].
  rewrite (write_summary_line_on cfg p _ H Hp). reflexivity.
Qed.

(** X19. A failed report gets one annotation per error on the standard
    output, however many there are, between the two group lines; its part
    of the summary is cut: the title, at most 25 errors, one line counting
    the others when there are more, and an empty line. *)
Theorem emit_extra_errors_lines (cfg : config) (p f : string) (errors : list text) :
  GITHUB_STEP_SUMMARY cfg = Some p -> p <> EmptyString ->
  stdout_of (emit_extra_errors cfg f errors)
  = [Stdout [Lit "::group::Extra invariant errors in "; Lit f]]
    ++ map (gh_error f) errors ++ [Stdout [Lit "::endgroup::"]] /\
  length (emit_extra_errors cfg f errors)
  = ((length errors + 2)
     + (2 + Nat.min 25 (length errors)
        + (if (25 <? length errors)%nat then 1 else 0)))%nat.
Proof.
  intros H Hp. split.
  - unfold emit_extra_errors. stdout_tac. reflexivity.
  - unfold emit_extra_errors.
    rewrite !length_app, length_map, (length_summary_items cfg p _ _ H Hp),
      !(write_summary_line_on cfg p _ H Hp).
    cbn [length].
    change (length (A := list frag) errors) with (length (A := text) errors).
    destruct (25 <? length errors)%nat; lia.
Qed.


(** ** The environment *)

Lemma lstrip_eq (s : string) :
  lstrip s = match space_width s with
             | O => s
             | k => lstrip (sdrop k s)
             end.
Proof.
  destruct s as [|a [|b [|c v]]]; simpl; try reflexivity.
  - destruct (is_space a); reflexivity.
  - destruct (is_space a); [reflexivity|]. destruct (two_byte_space a b); reflexivity.
  - destruct (is_space a); [reflexivity|]. destruct (two_byte_space a b); [reflexivity|].
    destruct (three_byte_space a b c); reflexivity.
Qed.

Lemma space_width_le (s : string) : (space_width s <= String.length s)%nat.
Proof.
  destruct s as [|a [|b [|c v]]]; simpl; try lia.
  - destruct (is_space a); lia.
  - destruct (is_space a); [lia|]. destruct (two_byte_space a b); lia.
  - destruct (is_space a); [lia|]. destruct (two_byte_space a b); [lia|].
    destruct (three_byte_space a b c); lia.
Qed.

Lemma space_width_app (p w : string) :
  space_width p <> O -> space_width (p +:+ w) = space_width p.
Proof.
  intros H. destruct p as [|a [|b [|c v]]]; simpl in *; try congruence;
    destruct (is_space a); try reflexivity; try congruence;
    destruct (two_byte_space a b); try reflexivity; congruence.
Qed.

Lemma sdrop_length (n : nat) (s : string) :
  String.length (sdrop n s) = (String.length s - n)%nat.
Proof.
  revert s. induction n as [|n IH]; intros s; simpl; [lia|].
  destruct s; simpl; [reflexivity | apply IH].
Qed.

Lemma sdrop_app (n : nat) (p w : string) :
  (n <= String.length p)%nat -> sdrop n (p +:+ w) = sdrop n p +:+ w.
Proof.
  revert p. induction n as [|n IH]; intros p H; [reflexivity|].
  destruct p as [|a p]; simpl in *; [lia|]. apply IH. lia.
Qed.

Lemma has_char_sdrop (c : ascii) (n : nat) (s : string) :
  has_char c (sdrop n s) = true -> has_char c s = true.
Proof.
  revert s. induction n as [|n IH]; intros s H; [exact H|].
  destruct s as [|a s]; simpl in *; [exact H|].
  rewrite (IH s H). apply orb_true_r.
Qed.

(** Induction along [lstrip]. *)
Lemma lstrip_ind (P : string -> Prop) :
  (forall s, space_width s = O -> P s) ->
  (forall s, space_width s <> O -> P (sdrop (space_width s) s) -> P s) ->
  forall s, P s.
Proof.
  intros H0 HS s.
  remember (String.length s) as n eqn:Hn. revert s Hn.
  induction n as [n IH] using lt_wf_ind. intros s Hn.
  destruct (decide (space_width s = O)) as [E|E]; [apply H0, E|].
  apply HS; [exact E|]. eapply IH; [|reflexivity].
  rewrite sdrop_length. pose proof (space_width_le s). lia.
Qed.

Lemma has_char_lstrip (c : ascii) (s : string) :
  has_char c (lstrip s) = true -> has_char c s = true.
Proof.
  induction s as [s E|s E IH] using lstrip_ind; rewrite lstrip_eq.
  - rewrite E. exact (fun H => H).
  - destruct (space_width s) as [|k] eqn:K; [congruence|].
    intros H. apply (has_char_sdrop c (S k)), IH, H.
Qed.

Lemma has_char_rstrip (c : ascii) (s : string) :
  has_char c (rstrip s) = true -> has_char c s = true.
Proof.
  induction s as [|a s IH]; [discriminate|].
  cbn [rstrip]. destruct (lstrip (String a s)); [discriminate|].
  simpl. intros H. apply orb_true_iff in H as [H|H].
  - rewrite H. reflexivity.
  - rewrite (IH H). apply orb_true_r.
Qed.


Lemma lstrip_idem (s : string) : lstrip (lstrip s) = lstrip s.
Proof.
  induction s as [s E|s E IH] using lstrip_ind.
  - rewrite (lstrip_eq s), E. rewrite (lstrip_eq s), E. reflexivity.
  - rewrite (lstrip_eq s). destruct (space_width s); [congruence | exact IH].
Qed.

Lemma lstrip_width (s : string) : space_width (lstrip s) = O.
Proof.
  induction s as [s E|s E IH] using lstrip_ind; rewrite lstrip_eq.
  - rewrite E. exact E.
  - destruct (space_width s); [congruence | exact IH].
Qed.

Lemma lstrip_app (a w : string) :
  lstrip a = EmptyString -> lstrip (a +:+ w) = lstrip w.
Proof.
  induction a as [a E|a E IH] using lstrip_ind; intros H.
  - rewrite lstrip_eq, E in H. subst a. reflexivity.
  - rewrite (lstrip_eq (a +:+ w)), (space_width_app a w E).
    rewrite lstrip_eq in H.
    destruct (space_width a) as [|k] eqn:K; [congruence|].
    rewrite sdrop_app by (rewrite <- K; apply space_width_le).
    apply IH, H.
Qed.

Lemma rstrip_split (s : string) :
  exists w, s = rstrip s +:+ w /\ lstrip w = EmptyString.
Proof.
  induction s as [|c s (w & Hw & Hl)].
  - exists EmptyString. split; reflexivity.
  - cbn [rstrip]. destruct (lstrip (String c s)) eqn:E.
    + exists (String c s). split; [reflexivity | exact E].
    + exists w. split; [|exact Hl].
      change (String c s = String c (rstrip s +:+ w)). rewrite <- Hw. reflexivity.
Qed.

Lemma rstrip_idem (s : string) : rstrip (rstrip s) = rstrip s.
Proof.
  induction s as [|c s IH]; [reflexivity|].
  cbn [rstrip]. destruct (lstrip (String c s)) as [|x r] eqn:E; [reflexivity|].
  cbn [rstrip]. destruct (lstrip (String c (rstrip s))) eqn:E'.
  - exfalso. destruct (rstrip_split s) as (w & Hw & Hl).
    pose proof (lstrip_app (String c (rstrip s)) w E') as H.
    change (String c (rstrip s) +:+ w) with (String c (rstrip s +:+ w)) in H.
    rewrite <- Hw, Hl in H. congruence.
  - rewrite IH. reflexivity.
Qed.

Lemma rstrip_width (t : string) :
  space_width t = O -> space_width (rstrip t) = O.
Proof.
  intros H. destruct (rstrip_split t) as (w & Hw & _).
  destruct (decide (space_width (rstrip t) = O)) as [E|E]; [exact E|].
  pose proof (space_width_app (rstrip t) w E) as H'. rewrite <- Hw in H'. congruence.
Qed.

Lemma strip_idem (s : string) : strip (strip s) = strip s.
Proof.
  unfold strip.
  rewrite (lstrip_eq (rstrip (lstrip s))), (rstrip_width _ (lstrip_width s)).
  apply rstrip_idem.
Qed.

Lemma has_char_strip (c : ascii) (s : string) :
  has_char c (strip s) = true -> has_char c s = true.
Proof. intros H. apply has_char_lstrip, has_char_rstrip, H. Qed.

Lemma split_comma_chars (s : string) :
  Forall (fun x => forall c, has_char c x = true ->
                             has_char c s = true /\ c <> ","%char)
         (split_comma s).
Proof.
  induction s as [|a s IH]; simpl.
  - repeat constructor; discriminate.
  - case_bool_decide as Ha.
    + constructor; [intros c H; discriminate|].
      eapply Forall_impl; [exact IH|]. simpl. intros x Hx c Hc.
      destruct (Hx c Hc) as [H1 H2]. rewrite H1, orb_true_r. auto.
    + destruct (split_comma s) as [|x xs].
      * constructor; [|constructor].
        intros c Hc. simpl in Hc. rewrite orb_false_r in Hc.
        apply bool_decide_eq_true in Hc. subst c.
        rewrite bool_decide_eq_true_2 by reflexivity. auto.
      * inversion IH as [|? ? Hx Hxs]; subst. constructor.
        -- intros c Hc. simpl in Hc. apply orb_true_iff in Hc as [Hc|Hc].
           ++ apply bool_decide_eq_true in Hc. subst c.
              rewrite bool_decide_eq_true_2 by reflexivity. auto.
           ++ destruct (Hx c Hc) as [H1 H2]. rewrite H1, orb_true_r. auto.
        -- eapply Forall_impl; [exact Hxs|]. simpl. intros y Hy c Hc.
           destruct (Hy c Hc) as [H1 H2]. rewrite H1, orb_true_r. auto.
Qed.

(** X21. The forbidden labels read from [FORBID_CLASSIFICATION] are clean:
    whatever the variable holds, no label is empty, no label contains a
    comma, and no label has white space left around it. *)
Theorem forbid_of_environ_labels (environ : gmap string string) :
  Forall (fun x => x <> EmptyString /\ has_char "," x = false /\ strip x = x)
         (forbid_of_environ environ).
Proof.
  unfold forbid_of_environ. apply Forall_map.
  pose proof (split_comma_chars
                (strip (environ_get environ "FORBID_CLASSIFICATION" "Strong Deviation")))
    as H.
  induction H as [|x l Hx Hl IH]; [constructor|].
  destruct (decide (strip x <> EmptyString)) as [Hne|He].
  - rewrite filter_cons_True by exact Hne. constructor; [|exact IH].
    simpl. split; [exact Hne|]. split; [|apply strip_idem].
    destruct (has_char "," (strip x)) eqn:E; [|reflexivity].
    apply has_char_strip, Hx in E. destruct E as [_ E]. congruence.
  - rewrite filter_cons_False by exact He. exact IH.
Qed.

Lemma default_profile_of_environ_blank (environ : gmap string string) :
  strip (environ_get environ "DEFAULT_PROFILE" "core") = EmptyString ->
  default_profile_of_environ environ = "core".
Proof. unfold default_profile_of_environ. intros ->. reflexivity. Qed.

(** X22. Whatever [DEFAULT_PROFILE] holds, a report whose [spec] is a dict
    has a non-empty string under [spec.profile] once the default profile
    read from the environment has been injected, and nothing else has
    changed in [spec] or in the report. The default is never the empty
    string: a variable that is blank once stripped, of Unicode white space
    too, gives "core". *)
Theorem injected_profile_nonempty (environ : gmap string string)
    (report spec : gmap string json) :
  report !! "spec" = Some (JDict spec) ->
  let report' := inject_default_profile report (default_profile_of_environ environ) in
  exists spec',
    report' !! "spec" = Some (JDict spec') /\
    has_profile spec' /\
    (forall k, k <> "profile" -> spec' !! k = spec !! k) /\
    (forall k, k <> "spec" -> report' !! k = report !! k) /\
    (strip (environ_get environ "DEFAULT_PROFILE" "core") = EmptyString ->
     ~ has_profile spec -> spec' !! "profile" = Some (JStr "core")).
Proof.
  intros Hs. cbv zeta.
  assert (Hne : default_profile_of_environ environ <> EmptyString).
  { unfold default_profile_of_environ. destruct (strip _); discriminate. }
  destruct (profile_missing spec) eqn:M.
  - rewrite (inject_default_profile_changed report spec _ Hs M).
    exists (<["profile" := JStr (default_profile_of_environ environ)]> spec).
    split; [apply lookup_insert_eq|]. split; [|split; [|split]].
    + exists (default_profile_of_environ environ).
      split; [apply lookup_insert_eq | exact Hne].
    + intros k Hk. apply lookup_insert_ne. congruence.
    + intros k Hk. apply lookup_insert_ne. congruence.
    + intros Hb _. rewrite lookup_insert_eq, (default_profile_of_environ_blank _ Hb).
      reflexivity.
  - rewrite inject_default_profile_unchanged.
    2:{ intros spec0 H0. rewrite Hs in H0. inversion H0; subst spec0. exact M. }
    exists spec. split; [exact Hs|]. split; [|split; [|split]].
    + apply profile_missing_false, M.
    + reflexivity.
    + reflexivity.
    + intros _ Hn. exfalso. apply Hn, profile_missing_false, M.
Qed.



(** ** Annotations and verdicts *)

Ltac no_line H :=
  repeat first
    [ discriminate H
    | contradiction H
    | apply in_app_iff in H as [H|H]
    | apply in_map_iff in H as (? & H & _)
    | destruct H as [H|H] ].

Lemma process_file_lines_plain (cfg : config) (schema : json) (rf : report_file) :
  let out := fst (process_file (with_summary cfg None) schema rf) in
  let verdict := snd (process_file (with_summary cfg None) schema rf) in
  (verdict = Ok true <-> exists m, In (gh_error (file_path rf) m) out) /\
  (In (Stdout [Lit "✅ "; Lit (file_path rf); Lit ": OK (schema + invariants)"]) out
   <-> ~ skipped rf /\ verdict = Ok false).
Proof.
  cbv zeta. unfold process_file, skipped.
  destruct (endswith (path_name (file_path rf)) ".schema.json") eqn:E.
  { cbn [fst snd]. split; split.
    - discriminate.
    - intros [m []].
    - intros [].
    - intros [H _]. exfalso. apply H. reflexivity. }
  clear E.
  destruct (file_load rf) as [report|e].
  2:{ cbn [fst snd]. split; split.
      - intros _. eexists. left. reflexivity.
      - reflexivity.
      - intros H. unfold emit_invalid_json in H. no_line H.
      - intros [_ H]. discriminate H. }
  unfold validate_report. cbn [snd].
  destruct (sorted_iter_errors schema (inject_if_dict (with_summary cfg None) report))
    as [|se ses].
  2:{ cbn [nonempty fst snd]. split; split.
      - intros _. eexists. right. left. reflexivity.
      - reflexivity.
      - intros H. unfold emit_schema_errors in H. rewrite summary_items_none in H.
        no_line H.
      - intros [_ H]. discriminate H. }
  cbn [nonempty].
  destruct (extra_invariants (with_summary cfg None)
              (inject_if_dict (with_summary cfg None) report) (Findings [] []))
    as [[u fs]|e].
  2:{ cbn [fst snd]. split; split.
      - discriminate.
      - intros [m []].
      - intros [].
      - intros [_ H]. discriminate H. }
  unfold emit_findings. destruct (extra_errors fs) as [|m ms].
  - cbn [nonempty fst snd]. split; split.
    + discriminate.
    + intros [m H]. exfalso. apply in_app_iff in H as [H|H].
      * destruct (nonempty (extra_warnings fs)); [|contradiction H].
        unfold emit_extra_warnings in H. no_line H.
      * unfold emit_ok in H. no_line H.
    + intros _. split; [discriminate | reflexivity].
    + intros _. apply in_app_iff. right. left. reflexivity.
  - cbn [nonempty fst snd]. split; split.
    + intros _. eexists. right. left. reflexivity.
    + reflexivity.
    + intros H. unfold emit_extra_errors in H. rewrite summary_items_none in H.
      no_line H.
    + intros [_ H]. discriminate H.
Qed.

Lemma In_stdout_of (ev : event) (l : list event) :
  is_stdout ev = true -> (In ev (stdout_of l) <-> In ev l).
Proof.
  intros H. unfold stdout_of. rewrite filter_In. split; [intros [H' _]; exact H' | auto].
Qed.

(** X24. The annotations of a file agree with its verdict, with or
    without a summary file: the file is counted as failed exactly when an
    [::error] annotation is printed for it, and the [OK] line is printed
    exactly when the file is not skipped and is not counted as failed. A
    skipped file, and a file whose checks raise, print neither. *)
Theorem process_file_lines (cfg : config) (schema : json) (rf : report_file) :
  let out := fst (process_file cfg schema rf) in
  let verdict := snd (process_file cfg schema rf) in
  (verdict = Ok true <-> exists m, In (gh_error (file_path rf) m) out) /\
  (In (Stdout [Lit "✅ "; Lit (file_path rf); Lit ": OK (schema + invariants)"]) out
   <-> ~ skipped rf /\ verdict = Ok false).
Proof.
  cbv zeta. pose proof (process_file_lines_plain cfg schema rf) as H.
  cbv zeta in H. rewrite process_file_stdout in H. cbn [fst snd] in H.
  destruct H as [H1 H2]. split.
  - rewrite H1. split; intros [m H]; exists m; revert H;
      apply In_stdout_of; reflexivity.
  - rewrite <- H2. symmetry. apply In_stdout_of. reflexivity.
Qed.







End Validator.

(** ** Concrete runs *)

Example base_report_passes :
  snd (main parse_nothing accept_all
         (example_world [ReportFile "reports/report-0.json"
                           (Loaded (example_report 10000 0 JNull with_disclaimer))])
         (example_cfg false false)) = Exit 0.
Proof. vm_compute. reflexivity. Qed.

(** [test_invalid_count_exceeds_n_fails] *)
Example invalid_count_exceeds_n_fails :
  snd (main parse_nothing accept_all
         (example_world [ReportFile "reports/report-0.json"
                           (Loaded (example_report 10 11 JNull with_disclaimer))])
         (example_cfg false false)) = Exit 1.
Proof. vm_compute. reflexivity. Qed.

(** [test_require_disclaimer_fails_when_missing], and the same report
    when the disclaimer is not required. *)
Example require_disclaimer_fails_when_missing :
  let w := example_world
             [ReportFile "reports/report-0.json"
                (Loaded (example_report 10000 0 JNull (JList [JStr "No disclaimer here"])))] in
  snd (main parse_nothing accept_all w (example_cfg false true)) = Exit 1 /\
  snd (main parse_nothing accept_all w (example_cfg false false)) = Exit 0.
Proof. split; vm_compute; reflexivity. Qed.

(** [test_strict_classification_fails] *)
Example strict_classification_fails :
  let w := example_world
             [ReportFile "reports/report-0.json"
                (Loaded (example_report 10000 0 (dict example_baseline) with_disclaimer))] in
  snd (main parse_nothing accept_all w (example_cfg true false)) = Exit 1 /\
  snd (main parse_nothing accept_all w (example_cfg false false)) = Exit 0.
Proof. split; vm_compute; reflexivity. Qed.

(** A report that is not a JSON object and that the schema accepts ends the
    run with an uncaught exception. *)
Example non_object_report_raises :
  snd (main parse_nothing accept_all
         (example_world [ReportFile "reports/report-0.json" (Loaded (JList []))])
         (example_cfg false false)) = Uncaught AttributeError.
Proof. vm_compute. reflexivity. Qed.

(** C5, on the report of [test_invalid_count_exceeds_n_fails]. *)
Lemma check_count_containment_witness :
  check_count (example_report 10 11 JNull with_disclaimer) (Findings [] [])
  = Ok (tt, Findings [[Lit "data.invalid_count ("; FJson (JInt 11);
                       Lit ") > data.N ("; FJson (JInt 10); Lit ")"]] []).
Proof.
  apply (proj1 (check_count_containment
                  (example_report 10 11 JNull with_disclaimer) (Findings [] []))
           10 11); try (vm_compute; reflexivity).
Defined.

(** Against C5 as stated: [data.N = 10.0] and [data.invalid_count = 11.0] are
    present, non-negative whole numbers, the floats that [float] gives for
    10 and 11, and [invalid_count > N]; the check appends nothing, because
    they are not Python ints, and the run exits with status zero. *)
Lemma whole_float_counts_unchecked :
  let report :=
    dict [("data", dict [("N", JFloat 10); ("invalid_count", JFloat 11)]);
          ("notes", with_disclaimer)] in
  get_nested report ["data"; "N"] = JFloat 10 /\
  get_nested report ["data"; "invalid_count"] = JFloat 11 /\
  to_float parse_nothing (JInt 10) = Ok 10%float /\
  to_float parse_nothing (JInt 11) = Ok 11%float /\
  (0 <=? 10)%float = true /\ (10 <? 11)%float = true /\
  check_count report (Findings [] []) = Ok (tt, Findings [] []) /\
  snd (main parse_nothing accept_all
         (example_world [ReportFile "reports/report-0.json" (Loaded report)])
         (example_cfg false false)) = Exit 0.
Proof. cbv zeta. repeat split; vm_compute; reflexivity. Qed.

(** X27, on the baseline of [test_strict_classification_fails]. *)
Lemma check_classification_strict_witness :
  let baseline := list_to_map example_baseline in
  exists errs,
    check_classification parse_nothing (example_cfg true false) baseline
      (dict_get baseline "thresholds") (dict_get baseline "classification")
      (Findings [] []) = Ok (tt, add_errors (Findings [] []) errs) /\
    errs <> [].
Proof.
  cbv zeta.
  destruct (check_classification_strict parse_nothing (example_cfg true false)
              (list_to_map example_baseline)
              (list_to_map [("green", JFloat 0.1); ("yellow", JFloat 0.2);
                            ("red", JFloat 0.4)])
              "Within Baseline Envelope" (Findings [] []))
    as [H _]; try (vm_compute; reflexivity).
  destruct (H 0.3 0.1 0.2 0.4)%float as (errs & H1 & Hne & _);
    [vm_compute; reflexivity|].
  exists errs. split; [exact H1|].
  apply Hne. left. split; [reflexivity | vm_compute; reflexivity].
Defined.

(** C4, at its failing input. Strict mode is on, the distance, the three
    thresholds and the label are present and well-typed, and the distance,
    the integer [10 ^ 400], is above [yellow + TOL] for the label "Within
    Baseline Envelope"; the check appends no error: [float] raises
    [OverflowError], and the run ends with that exception. *)
Lemma classification_overflow_no_error :
  let baseline : gmap string json :=
    list_to_map [("distance", JInt (10 ^ 400));
                 ("classification", JStr "Within Baseline Envelope");
                 ("thresholds", dict [("green", JFloat 0.1); ("yellow", JFloat 0.2);
                                      ("red", JFloat 0.4)])] in
  let report := dict [("baseline", JDict baseline); ("notes", with_disclaimer)] in
  is_number (dict_get baseline "distance") = true /\
  (0.2 + TOL <? 1)%float = true /\ 1 < 10 ^ 400 /\
  check_classification parse_nothing (example_cfg true false) baseline
    (dict_get baseline "thresholds") (dict_get baseline "classification")
    (Findings [] []) = Raise OverflowError /\
  snd (main parse_nothing accept_all
         (example_world [ReportFile "reports/report-0.json" (Loaded report)])
         (example_cfg true false)) = Uncaught OverflowError.
Proof. cbv zeta. repeat split; vm_compute; reflexivity. Qed.

(** C3, at its failing input. The thresholds block is present and [green],
    [yellow] and [red] are numeric, with [green], the integer [10 ^ 400],
    above [yellow + TOL]; the check appends no error: [float] raises
    [OverflowError], and the run ends with that exception. *)
Lemma thresholds_overflow_no_error :
  let thr := dict [("green", JInt (10 ^ 400)); ("yellow", JInt 1); ("red", JInt 2)] in
  let report := dict [("baseline", dict [("thresholds", thr)]);
                      ("notes", with_disclaimer)] in
  forallb (fun k => is_number (get_nested thr [k])) ["green"; "yellow"; "red"] = true /\
  to_float parse_nothing (JInt 1) = Ok 1%float /\
  (1 + TOL <? 2)%float = true /\ 2 < 10 ^ 400 /\
  check_thresholds parse_nothing thr (Findings [] []) = Raise OverflowError /\
  snd (main parse_nothing accept_all
         (example_world [ReportFile "reports/report-0.json" (Loaded report)])
         (example_cfg false false)) = Uncaught OverflowError.
Proof. cbv zeta. repeat split; vm_compute; reflexivity. Qed.

(** C9, on a report without [notes]. *)
Lemma disclaimer_check_without_notes_list_witness :
  check_disclaimer (example_cfg false false) (dict_get ∅ "notes") (Findings [] [])
  = Ok (tt, Findings [] [disclaimer_msg]).
Proof.
  apply (disclaimer_check_without_notes_list parse_nothing (example_cfg false false)
           ∅ (Findings [] [])).
  intros items H. vm_compute in H. discriminate H.
Defined.

(** C10, on a report with a count error and without [notes]. *)
Lemma warnings_only_without_errors_witness :
  let out := fst (snd (validate_report parse_nothing accept_all (example_cfg false false)
                         (dict []) "reports/report-0.json"
                         (example_report 10 11 JNull JNull))) in
  out = emit_extra_errors (example_cfg false false) "reports/report-0.json"
          [[Lit "data.invalid_count ("; FJson (JInt 11);
            Lit ") > data.N ("; FJson (JInt 10); Lit ")"]] /\
  forall f' w, ~ In (gh_warning f' w) out.
Proof.
  cbv zeta.
  apply (warnings_only_without_errors parse_nothing accept_all (example_cfg false false)
           (dict []) "reports/report-0.json" (example_report 10 11 JNull JNull)
           (Findings [[Lit "data.invalid_count ("; FJson (JInt 11);
                       Lit ") > data.N ("; FJson (JInt 10); Lit ")"]]
                     [disclaimer_msg])).
  - reflexivity.
  - vm_compute. reflexivity.
  - discriminate.
Defined.

(** C7, on a batch of one valid report and one unreadable schema file. *)
Lemma main_exit_zero_witness :
  snd (main parse_nothing accept_all
         (example_world
            [ReportFile "reports/report-0.json"
               (Loaded (example_report 10000 0 JNull JNull));
             ReportFile "reports/old.schema.json" (LoadError "Expecting value")])
         (example_cfg false false)) = Exit 0.
Proof.
  apply (proj1 (proj2 (main_exit_zero parse_nothing accept_all
           (example_world
              [ReportFile "reports/report-0.json"
                 (Loaded (example_report 10000 0 JNull JNull));
               ReportFile "reports/old.schema.json" (LoadError "Expecting value")])
           (example_cfg false false) (dict []) eq_refl eq_refl))).
  split; [reflexivity|]. cbn [files example_world].
  constructor; [right | constructor; [left; vm_compute; reflexivity | constructor]].
  exists (example_report 10000 0 JNull JNull), (Findings [] [disclaimer_msg]).
  repeat split; vm_compute; reflexivity.
Defined.

(** Against C7 as stated, four runs. The only discovered file does not
    parse as JSON, and the run exits with status zero, because the file is
    named as a schema and skipped. The batch is empty and the schema file is
    missing: the run exits with status 1. The only document passes and the
    summary file does not open: the run ends with [OSError], not with status
    zero. The only document parses, passes the schema and gets no error
    finding, because its checks raise: the run ends with that exception. *)
Lemma exit_status_not_as_claimed :
  let cfg := example_cfg false false in
  let main := main parse_nothing accept_all in
  let passes cfg := file_passes parse_nothing accept_all cfg (dict []) in
  (let w := example_world
              [ReportFile "reports/old.schema.json" (LoadError "Expecting value")] in
   snd (main w cfg) = Exit 0 /\
   Exists (fun rf => exists e, file_load rf = LoadError e) (files w)) /\
  (let w := World false (LoadError "No such file") [] (fun _ => true) in
   files w = [] /\ snd (main w cfg) = Exit 1) /\
  (let cfg' := with_summary cfg (Some "no/such/dir/summary.md") in
   let w := World true (Loaded (dict []))
              [ReportFile "reports/report-0.json"
                 (Loaded (example_report 10000 0 JNull with_disclaimer))]
              (fun _ => false) in
   Forall (passes cfg') (files w) /\ snd (main w cfg') = Uncaught OSError) /\
  (let w := example_world [ReportFile "reports/report-0.json" (Loaded (JList []))] in
   Forall (fun rf => file_load rf = Loaded (JList []) /\
                     accept_all (dict []) (JList []) = [] /\
                     extra_invariants parse_nothing cfg (JList []) (Findings [] [])
                     = Raise AttributeError)
          (files w) /\
   snd (main w cfg) = Uncaught AttributeError).
Proof.
  cbv zeta. split; [|split; [|split]].
  - split; [vm_compute; reflexivity|]. constructor. eexists. reflexivity.
  - split; vm_compute; reflexivity.
  - split; [|vm_compute; reflexivity].
    constructor; [|constructor].
    exists (example_report 10000 0 JNull with_disclaimer), (Findings [] []).
    repeat split; vm_compute; reflexivity.
  - split; [|vm_compute; reflexivity].
    constructor; [|constructor]. repeat split.
Qed.

(** Against C6 as stated: a [profile] that is present, but empty or not a
    string, is overwritten by the default profile. *)
Lemma present_profile_overwritten :
  let validate := validate_report parse_nothing accept_all (example_cfg false false)
                    (dict []) "reports/report-0.json" in
  let empty := dict [("spec", dict [("profile", JStr EmptyString)])] in
  let number := dict [("spec", dict [("profile", JInt 7)])] in
  get_nested empty ["spec"; "profile"] = JStr EmptyString /\
  get_nested (fst (validate empty)) ["spec"; "profile"] = JStr "core" /\
  fst (validate empty) <> empty /\
  get_nested number ["spec"; "profile"] = JInt 7 /\
  get_nested (fst (validate number)) ["spec"; "profile"] = JStr "core" /\
  fst (validate number) <> number.
Proof.
  cbv zeta. repeat split; try (vm_compute; reflexivity);
    intros H; apply (f_equal (fun r => get_nested r ["spec"; "profile"])) in H;
    vm_compute in H; discriminate H.
Qed.

(** [float(n)] on integers: exact when representable, ties to even, and
    [OverflowError] beyond the largest binary64 number. *)
Example float_of_int_values :
  float_of_int 10 = Ok 10%float /\
  float_of_int (-3) = Ok (-3)%float /\
  float_of_int 0 = Ok 0%float /\
  float_of_int (2 ^ 53 + 1) = Ok 9007199254740992%float /\
  float_of_int (2 ^ 53 + 3) = Ok 9007199254740996%float /\
  float_of_int (10 ^ 400) = Raise OverflowError.
Proof. repeat split; vm_compute; reflexivity. Qed.

(** [test_ci_order_fails]: the reversed interval [0.95, 0.92]. *)
Example ci_order_fails :
  snd (main parse_nothing accept_all
         (example_world
            [ReportFile "reports/report-0.json"
               (Loaded (dict [("metrics",
                                dict [("rank", dict [("ci95", JList [JFloat 0.95; JFloat 0.92])])]);
                              ("notes", with_disclaimer)]))])
         (example_cfg false false)) = Exit 1.
Proof. vm_compute. reflexivity. Qed.

(** C2, on the interval of [base_report()] and on the reversed interval of
    [test_ci_order_fails]. *)
Lemma ensure_ci_order_pair_witness :
  ensure_ci_order [0.92; 0.95]%float "metrics.rank.ci95" = None /\
  exists msg, ensure_ci_order [0.95; 0.92]%float "metrics.rank.ci95" = Some msg /\
              In (Lit "metrics.rank.ci95") msg /\
              In (FNum 0.95) msg /\ In (FNum 0.92) msg.
Proof.
  split.
  - apply (proj1 (ensure_ci_order_pair 0.92%float 0.95%float "metrics.rank.ci95" eq_refl eq_refl)).
    vm_compute. reflexivity.
  - apply (proj2 (ensure_ci_order_pair 0.95%float 0.92%float "metrics.rank.ci95" eq_refl eq_refl)).
    vm_compute. reflexivity.
Defined.

(** Against C1 as stated: for these three binary64 numbers
    [num_in_interval] returns [True], the widened-interval test
    [lo - TOL <= x] fails as Python computes it, and it fails in exact
    arithmetic too: [x] is below [lo - TOL]. Next to 4096 the spacing of
    binary64 numbers is comparable with [TOL], and [x + TOL] rounds up to
    [lo] while [lo - TOL] rounds to 4096. *)
Lemma num_in_interval_not_widened :
  let x := 4095.9999999999995%float in
  let lo := 4096.000000000001%float in
  let hi := 5000%float in
  num_in_interval x [lo; hi] = Ok true /\
  in_widened_interval x lo hi = false /\
  exists qx qlo qtol,
    exact_value x = Some qx /\ exact_value lo = Some qlo /\
    exact_value TOL = Some qtol /\ (qx < qlo - qtol)%Q.
Proof.
  cbv zeta. split; [vm_compute; reflexivity|]. split; [vm_compute; reflexivity|].
  do 3 eexists. repeat split; vm_compute; reflexivity.
Qed.

(** ** The extra properties on concrete inputs *)

(** X4, on a schema file two directories down, and on the same entry with
    a slash at its end. *)
Lemma path_name_dir_witness :
  path_name "reports/old/ond-art.schema.json" = "ond-art.schema.json" /\
  skipped (ReportFile "reports/old/ond-art.schema.json" (LoadError "Expecting value")) /\
  skipped (ReportFile "reports/old/ond-art.schema.json/" (LoadError "Is a directory")).
Proof.
  split; [|split].
  - apply (path_name_dir "reports/old" "ond-art.schema.json"
             (LoadError "Expecting value") eq_refl); discriminate.
  - apply (proj2 (proj2 (path_name_dir "reports/old" "ond-art.schema.json"
                           (LoadError "Expecting value") eq_refl
                           ltac:(discriminate) ltac:(discriminate)))
             EmptyString (or_introl eq_refl)).
    exists "ond-art". reflexivity.
  - apply (proj2 (proj2 (path_name_dir "reports/old" "ond-art.schema.json"
                           (LoadError "Is a directory") eq_refl
                           ltac:(discriminate) ltac:(discriminate)))
             "/" (or_intror (or_introl eq_refl))).
    exists "ond-art". reflexivity.
Defined.

(** X5, on an interval with one bound. *)
Lemma interval_wrong_length_witness :
  ensure_ci_order [0.92%float] "metrics.rank.ci95"
  = Some [Lit "metrics.rank.ci95"; Lit " must have length 2"] /\
  num_in_interval 0.94%float [0.92%float] = Raise ValueError.
Proof.
  apply (interval_wrong_length 0.94%float [0.92%float] "metrics.rank.ci95").
  simpl. lia.
Defined.

(** X6, on an interval whose lower bound is NaN. *)
Lemma ensure_ci_order_nan_witness :
  ensure_ci_order [nan; 0.95%float] "metrics.rank.ci95" = None.
Proof.
  apply (ensure_ci_order_nan nan 0.95%float "metrics.rank.ci95").
  left. reflexivity.
Defined.

(** X7, on a NaN value and the interval of [base_report()]. *)
Lemma num_in_interval_nan_witness :
  num_in_interval nan [0.92; 0.95]%float = Ok false.
Proof.
  apply (num_in_interval_nan nan 0.92%float 0.95%float).
  left. reflexivity.
Defined.

(** X10, on the report of [base_report()] without its notes. *)
Lemma extra_invariants_warnings_witness :
  let report := example_report 10000 0 JNull JNull in
  extra_invariants parse_nothing (example_cfg false false) report (Findings [] [])
  = Ok (tt, Findings [] [disclaimer_msg]) /\
  extra_warnings (Findings [] [disclaimer_msg]) = [disclaimer_msg].
Proof.
  cbv zeta. split; [vm_compute; reflexivity|].
  apply (extra_invariants_warnings parse_nothing (example_cfg false false)
           (fields (example_report 10000 0 JNull JNull))
           (Findings [] []) (Findings [] [disclaimer_msg])).
  vm_compute. reflexivity.
Defined.

(** X11, on a report classified [Strong Deviation], the label forbidden
    by default. *)
Lemma forbidden_classification_reported_witness :
  let fs := Findings [[Lit "Forbidden baseline.classification='";
                       Lit "Strong Deviation"; Lit "'"]] [] in
  In [Lit "Forbidden baseline.classification='"; Lit "Strong Deviation"; Lit "'"]
     (extra_errors fs) /\
  snd (emit_findings (example_cfg false false) "reports/report-0.json" fs) = true.
Proof.
  cbv zeta.
  apply (forbidden_classification_reported parse_nothing (example_cfg false false)
           (fields (example_report 10000 0
                      (dict [("classification", JStr "Strong Deviation")])
                      with_disclaimer))
           (list_to_map [("classification", JStr "Strong Deviation")])
           "Strong Deviation" "reports/report-0.json" (Findings [] [])).
  - vm_compute. reflexivity.
  - vm_compute. reflexivity.
  - constructor.
  - vm_compute. reflexivity.
Defined.

(** X13, on the report of [base_report()] with a [baseline] that is a
    string. *)
Lemma baseline_not_dict_as_absent_witness :
  let d := fields (example_report 10000 0 JNull with_disclaimer) in
  extra_invariants parse_nothing (example_cfg true true)
    (JDict (<["baseline" := JStr "release-1"]> d)) (Findings [] [])
  = extra_invariants parse_nothing (example_cfg true true)
      (JDict (delete "baseline" d)) (Findings [] []).
Proof.
  cbv zeta.
  apply (baseline_not_dict_as_absent parse_nothing (example_cfg true true)
           (fields (example_report 10000 0 JNull with_disclaimer))
           (JStr "release-1") (Findings [] [])).
  intros b. discriminate.
Defined.

(** X14, on a report whose [spec] has no [profile]. *)
Lemma inject_default_profile_string_witness :
  let spec := list_to_map [("name", JStr "OND-ART"); ("version", JStr "0.1")] in
  let report := list_to_map [("spec", JDict spec)] in
  exists spec' s,
    inject_default_profile report "core" !! "spec" = Some (JDict spec') /\
    spec' !! "profile" = Some (JStr s) /\
    (has_profile spec -> spec !! "profile" = Some (JStr s)) /\
    (~ has_profile spec -> s = "core") /\
    ("core" <> EmptyString -> s <> EmptyString).
Proof.
  cbv zeta.
  apply (inject_default_profile_string
           (list_to_map
              [("spec", JDict (list_to_map [("name", JStr "OND-ART");
                                            ("version", JStr "0.1")]))])
           (list_to_map [("name", JStr "OND-ART"); ("version", JStr "0.1")])
           "core").
  vm_compute. reflexivity.
Defined.

(** X16, on a batch of an unreadable schema file and one report. *)
Lemma main_ignores_schema_files_witness :
  let report := ReportFile "reports/report-0.json"
                  (Loaded (example_report 10000 0 JNull with_disclaimer)) in
  let old := ReportFile "reports/old.schema.json" (LoadError "Expecting value") in
  main parse_nothing accept_all (example_world [old; report]) (example_cfg false false)
  = main parse_nothing accept_all (example_world [report]) (example_cfg false false).
Proof.
  cbv zeta.
  apply (main_ignores_schema_files parse_nothing accept_all (example_cfg false false)
           true (Loaded (dict [])) (fun _ => true)
           (ReportFile "reports/old.schema.json" (LoadError "Expecting value"))
           []
           [ReportFile "reports/report-0.json"
              (Loaded (example_report 10000 0 JNull with_disclaimer))]).
  - vm_compute. reflexivity.
  - discriminate.
Defined.

(** X19, on one error and a summary file. *)
Lemma emit_extra_errors_lines_witness :
  let cfg := with_summary (example_cfg false false) (Some "summary.md") in
  let errors := [[Lit "data.invalid_count ("; FJson (JInt 11);
                  Lit ") > data.N ("; FJson (JInt 10); Lit ")"]] in
  stdout_of (emit_extra_errors cfg "reports/report-0.json" errors)
  = [Stdout [Lit "::group::Extra invariant errors in "; Lit "reports/report-0.json"]]
    ++ map (gh_error "reports/report-0.json") errors
    ++ [Stdout [Lit "::endgroup::"]] /\
  length (emit_extra_errors cfg "reports/report-0.json" errors) = 6%nat.
Proof.
  cbv zeta.
  apply (emit_extra_errors_lines
           (with_summary (example_cfg false false) (Some "summary.md"))
           "summary.md" "reports/report-0.json"
           [[Lit "data.invalid_count ("; FJson (JInt 11);
             Lit ") > data.N ("; FJson (JInt 10); Lit ")"]]).
  - reflexivity.
  - discriminate.
Defined.

(** X20, on a run whose schema file does not exist. *)
Lemma main_schema_unavailable_witness :
  let w := World false (LoadError "No such file") [] (fun _ => true) in
  snd (main parse_nothing accept_all w (example_cfg false false)) = Exit 1 /\
  length (fst (main parse_nothing accept_all w (example_cfg false false))) = 1%nat.
Proof.
  cbv zeta.
  apply (main_schema_unavailable parse_nothing accept_all
           (World false (LoadError "No such file") [] (fun _ => true))
           (example_cfg false false)).
  left. reflexivity.
Defined.

(** X22, on a report without [spec.profile] and a [DEFAULT_PROFILE] that
    holds a no-break space (U+00A0, the bytes C2 A0) and a space: the
    profile injected is "core". *)
Lemma injected_profile_nonempty_witness :
  let environ : gmap string string :=
    {[ "DEFAULT_PROFILE" := String "194" (String "160" " ") ]} in
  let spec : gmap string json := list_to_map [("name", JStr "OND-ART")] in
  let report : gmap string json := list_to_map [("spec", JDict spec)] in
  get_nested (JDict (inject_default_profile report (default_profile_of_environ environ)))
    ["spec"; "profile"] = JStr "core".
Proof.
  intros environ spec report.
  assert (Hs : report !! "spec" = Some (JDict spec)) by (vm_compute; reflexivity).
  destruct (injected_profile_nonempty environ report spec Hs)
    as (spec' & H1 & _ & _ & _ & H5).
  cbn [get_nested]. rewrite H1, H5; [reflexivity | vm_compute; reflexivity |].
  intros (s & H & _). vm_compute in H. discriminate H.
Defined.

